(** * Payment verification on Monad Testnet: a shallow embedding

    The development follows [x402-backend/payments/evm_verify.py] and
    [x402-backend/payments/base_token.py].  Python text is modelled as
    [string] over ASCII characters, integers as [Z], decoded JSON values
    as the inductive [json], raised exceptions as the [Raise] outcome, and
    the effects of the asynchronous code (JSON-RPC requests, [print],
    [asyncio.sleep], the event-loop clock) by explicit state passing over
    a scripted environment. *)

From Stdlib Require Import ZArith NArith List String Ascii Bool Lia.
From Stdlib Require Import DecimalString HexString.
Import ListNotations.

Local Open Scope string_scope.
Local Open Scope Z_scope.

(** ** Python text operations *)

Module PyStr.

Definition in_range (lo hi c : ascii) : bool :=
  (nat_of_ascii lo <=? nat_of_ascii c)%nat && (nat_of_ascii c <=? nat_of_ascii hi)%nat.

Definition is_upper (c : ascii) : bool := in_range "A" "Z" c.
Definition is_lower (c : ascii) : bool := in_range "a" "z" c.
Definition is_digit (c : ascii) : bool := in_range "0" "9" c.

Definition lower_char (c : ascii) : ascii :=
  if is_upper c then ascii_of_nat (nat_of_ascii c + 32) else c.

Definition upper_char (c : ascii) : ascii :=
  if is_lower c then ascii_of_nat (nat_of_ascii c - 32) else c.

(** [str.lower()] *)
Fixpoint lower (s : string) : string :=
  match s with
  | EmptyString => EmptyString
  | String c r => String (lower_char c) (lower r)
  end.

Fixpoint forall_chars (p : ascii -> bool) (s : string) : bool :=
  match s with
  | EmptyString => true
  | String c r => p c && forall_chars p r
  end.

Fixpoint exists_char (p : ascii -> bool) (s : string) : bool :=
  match s with
  | EmptyString => false
  | String c r => p c || exists_char p r
  end.

(** [needle in hay] on two strings: [needle] occurs as a substring. *)
Fixpoint contains (needle hay : string) : bool :=
  String.prefix needle hay ||
  match hay with
  | EmptyString => false
  | String _ r => contains needle r
  end.

(** The decimal text of an integer, with a leading minus sign: what
    [str(n)] is when the conversion is allowed (see [fits]). *)
Definition of_Z (n : Z) : string := NilZero.string_of_int (Z.to_int n).

(** [sys.int_max_str_digits], at its default. *)
Definition int_max_str_digits : nat := 4300.

(** An integer [str] converts: its decimal text, the sign apart, has no
    more digits than the limit. *)
Definition fits (n : Z) : bool :=
  (String.length (of_Z (Z.abs n)) <=? int_max_str_digits)%nat.

(** [hex(n)] for an integer: ["0x1f"], ["-0x1f"], ["0x0"]. *)
Definition hex (n : Z) : string := HexString.of_Z n.

End PyStr.

(** ** Keccak-256, the hash behind checksummed addresses *)

Module Keccak.

Local Open Scope N_scope.

Definition mask64 : N := N.ones 64.

Definition rotl64 (v n : N) : N :=
  N.land (N.lor (N.shiftl v n) (N.shiftr v (64 - n))) mask64.

(** The state is 25 lanes of 64 bits; lane (x, y) sits at index x + 5y. *)
Definition lane (s : list N) (x y : nat) : N :=
  nth ((x mod 5) + 5 * (y mod 5))%nat s 0.

Definition tabulate (f : nat -> nat -> N) : list N :=
  map (fun i => f (i mod 5) (i / 5))%nat (seq 0 25).

Definition column (s : list N) (x : nat) : N :=
  N.lxor (lane s x 0)
    (N.lxor (lane s x 1) (N.lxor (lane s x 2) (N.lxor (lane s x 3) (lane s x 4)))).

Definition theta (s : list N) : list N :=
  tabulate (fun x y =>
    N.lxor (lane s x y)
      (N.lxor (column s (x + 4)) (rotl64 (column s (x + 1)) 1))).

Definition rotation_offsets : list N :=
  [ 0; 1; 62; 28; 27;
    36; 44; 6; 55; 20;
    3; 10; 43; 25; 39;
    41; 45; 15; 21; 8;
    18; 2; 61; 56; 14 ].

(** rho and pi together: B[y, 2x + 3y] = rotl (A[x, y]) r[x, y]; read at
    the target (X, Y) the source is x = X + 3Y, y = X. *)
Definition rho_pi (s : list N) : list N :=
  tabulate (fun X Y =>
    let x := ((X + 3 * Y) mod 5)%nat in
    let y := X in
    rotl64 (lane s x y) (nth (x + 5 * y)%nat rotation_offsets 0)).

Definition chi (s : list N) : list N :=
  tabulate (fun x y =>
    N.lxor (lane s x y)
      (N.land (N.lxor (lane s (x + 1) y) mask64) (lane s (x + 2) y))).

Definition iota (rc : N) (s : list N) : list N :=
  match s with
  | [] => []
  | a :: r => N.lxor a rc :: r
  end.

Definition round_constants : list N :=
  [ 0x0000000000000001; 0x0000000000008082; 0x800000000000808A;
    0x8000000080008000; 0x000000000000808B; 0x0000000080000001;
    0x8000000080008081; 0x8000000000008009; 0x000000000000008A;
    0x0000000000000088; 0x0000000080008009; 0x000000008000000A;
    0x000000008000808B; 0x800000000000008B; 0x8000000000008089;
    0x8000000000008003; 0x8000000000008002; 0x8000000000000080;
    0x000000000000800A; 0x800000008000000A; 0x8000000080008081;
    0x8000000000008080; 0x0000000080000001; 0x8000000080008008 ].

Definition keccak_f (s : list N) : list N :=
  fold_left (fun st rc => iota rc (chi (rho_pi (theta st)))) round_constants s.

(** Rate of Keccak-256 in bytes. *)
Definition rate : nat := 136.

Definition pad (len : nat) : list N :=
  let q := (rate - len mod rate)%nat in
  match q with
  | 1%nat => [0x81]
  | _ => (0x01 :: repeat 0 (q - 2) ++ [0x80])%list
  end.

Fixpoint lane_of_bytes (bs : list N) : N :=
  match bs with
  | [] => 0
  | b :: r => b + 256 * lane_of_bytes r
  end.

Fixpoint lanes_of_bytes (n : nat) (bs : list N) : list N :=
  match n with
  | O => []
  | S k => lane_of_bytes (firstn 8 bs) :: lanes_of_bytes k (skipn 8 bs)
  end.

Fixpoint xor_lanes (s b : list N) : list N :=
  match s, b with
  | a :: s', c :: b' => N.lxor a c :: xor_lanes s' b'
  | _, _ => s
  end.

Fixpoint absorb (blocks : nat) (s bs : list N) : list N :=
  match blocks with
  | O => s
  | S k =>
      absorb k (keccak_f (xor_lanes s (lanes_of_bytes 17 (firstn rate bs))))
        (skipn rate bs)
  end.

Fixpoint bytes_of_lane (n : nat) (v : N) : list N :=
  match n with
  | O => []
  | S k => v mod 256 :: bytes_of_lane k (v / 256)
  end.

Definition keccak256 (msg : list N) : list N :=
  let padded := (msg ++ pad (List.length msg))%list in
  let s := absorb (List.length padded / rate)%nat (repeat 0 25) padded in
  flat_map (bytes_of_lane 8) (firstn 4 s).

Definition bytes_of_string (s : string) : list N :=
  map N_of_ascii (list_ascii_of_string s).

(** The 64 nibbles of the digest, most significant nibble of each byte
    first: the digits of its hexadecimal text. *)
Definition nibbles (digest : list N) : list N :=
  flat_map (fun b => [b / 16; b mod 16]) digest.

End Keccak.

Definition hex_text (bs : list N) : string :=
  string_of_list_ascii
    (map (fun d => if (d <? 10)%N then ascii_of_N (48 + d) else ascii_of_N (87 + d))
       (Keccak.nibbles bs)).


(** ** Decoded JSON values and Python exceptions *)

(** What [resp.json()] yields.  A float is observed by this code only
    through its truth value and its text, which the constructor carries.
    An integer comes out of the decoder with no more decimal digits than
    [PyStr.int_max_str_digits]: a longer literal makes the decoder raise. *)
#[warnings="-register-all"]
Inductive json : Type :=
| JNull
| JBool (b : bool)
| JInt (n : Z)
| JFloat (nonzero : bool) (text : string)
| JStr (s : string)
| JArr (items : list json)
| JObj (members : list (string * json)).

Inductive exn_kind : Type := TypeError | ValueError | AttributeError.

(** The result of evaluating a Python expression: a value, or a raised
    exception with the text [str(e)] gives. *)
Inductive outcome (A : Type) : Type :=
| Ret (a : A)
| Raise (kind : exn_kind) (text : string).

Arguments Ret {A} a.
Arguments Raise {A} kind text.

(** [str(n)] for an integer, as an f-string applies it: ValueError
    beyond the digit limit. *)
Definition int_str (n : Z) : outcome string :=
  if PyStr.fits n then Ret (PyStr.of_Z n)
  else
    Raise ValueError
      "Exceeds the limit (4300 digits) for integer string conversion; use sys.set_int_max_str_digits() to increase the limit".

Definition raises {A : Type} (o : outcome A) : bool :=
  match o with
  | Ret _ => false
  | Raise _ _ => true
  end.

(** Truth value of a decoded value, as [if v:] and [not v] test it. *)
Definition truthy (v : json) : bool :=
  match v with
  | JNull => false
  | JBool b => b
  | JInt n => negb (n =? 0)
  | JFloat nonzero _ => nonzero
  | JStr s => negb (s =? "")%string
  | JArr items => match items with [] => false | _ :: _ => true end
  | JObj members => match members with [] => false | _ :: _ => true end
  end.

Definition type_name (v : json) : string :=
  match v with
  | JNull => "NoneType"
  | JBool _ => "bool"
  | JInt _ => "int"
  | JFloat _ _ => "float"
  | JStr _ => "str"
  | JArr _ => "list"
  | JObj _ => "dict"
  end.

Fixpoint lookup (key : string) (members : list (string * json)) : option json :=
  match members with
  | [] => None
  | (k, v) :: rest => if (k =? key)%string then Some v else lookup key rest
  end.

(** [d.get(key, default)]: only a dict has the method. *)
Definition py_get (d : json) (key : string) (default : json) : outcome json :=
  match d with
  | JObj members =>
      Ret (match lookup key members with Some v => v | None => default end)
  | _ =>
      Raise AttributeError
        ("'" ++ type_name d ++ "' object has no attribute 'get'")
  end.

Module PyRepr.

Definition hex2 (c : ascii) : string :=
  let n := N_of_ascii c in
  let digit d := if (d <? 10)%N then ascii_of_N (48 + d) else ascii_of_N (87 + d) in
  String (digit (n / 16)%N) (String (digit (n mod 16)%N) EmptyString).

Definition escape_char (quote c : ascii) : string :=
  if (c =? quote)%char || (c =? "\")%char then String "\" (String c EmptyString)
  else if (c =? "009")%char then "\t"
  else if (c =? "010")%char then "\n"
  else if (c =? "013")%char then "\r"
  else if (N_of_ascii c <? 32)%N || (N_of_ascii c =? 127)%N then "\x" ++ hex2 c
  else String c EmptyString.

Fixpoint escape (quote : ascii) (s : string) : string :=
  match s with
  | EmptyString => EmptyString
  | String c r => escape_char quote c ++ escape quote r
  end.

(** [repr(s)] of a string: single quotes unless the text has a single
    quote and no double quote. *)
Definition double_quote : ascii := ascii_of_nat 34.

Definition of_str (s : string) : string :=
  let has q := PyStr.exists_char (fun c => (c =? q)%char) s in
  let quote : ascii :=
    if has "'"%char && negb (has double_quote) then double_quote else "'"%char in
  String quote (escape quote s ++ String quote EmptyString).

Definition join (sep : string) (l : list string) : string := String.concat sep l.

Fixpoint of_json (v : json) : string :=
  match v with
  | JNull => "None"
  | JBool true => "True"
  | JBool false => "False"
  | JInt n => PyStr.of_Z n
  | JFloat _ text => text
  | JStr s => of_str s
  | JArr items => "[" ++ join ", " (map of_json items) ++ "]"
  | JObj members =>
      "{" ++ join ", " (map (fun kv => of_str (fst kv) ++ ": " ++ of_json (snd kv)) members)
          ++ "}"
  end.

(** [str(v)], which an f-string applies to an interpolated value. *)
Definition str (v : json) : string :=
  match v with
  | JStr s => s
  | _ => of_json v
  end.

End PyRepr.

(** ** [Web3.to_checksum_address]

    The web3 package is a dependency of the repository, not part of it.
    Its address normalisation is modelled here as the eth-utils functions
    behind it compute it: an address is 40 hexadecimal digits with an
    optional 0x prefix, in any letter case; the result is the EIP-55
    mixed-case form. *)

Module EthUtils.

Definition is_hex_digit (c : ascii) : bool :=
  PyStr.is_digit c || PyStr.in_range "a" "f" c || PyStr.in_range "A" "F" c.

(** [value.startswith(("0x", "0X"))] *)
Definition is_0x_prefixed (s : string) : bool :=
  match s with
  | String c0 (String c1 _) =>
      (c0 =? "0")%char && ((c1 =? "x")%char || (c1 =? "X")%char)
  | _ => false
  end.

(** [value[2:]] *)
Definition drop2 (s : string) : string :=
  match s with
  | String _ (String _ r) => r
  | String _ EmptyString => EmptyString
  | EmptyString => EmptyString
  end.

Definition remove_0x_prefix (s : string) : string :=
  if is_0x_prefixed s then drop2 s else s.

Definition add_0x_prefix (s : string) : string :=
  if is_0x_prefixed s then s else "0x" ++ s.

(** A non-empty text matching [(0[xX])?[0-9a-fA-F]*]. *)
Definition is_hexstr (s : string) : bool :=
  negb (s =? "")%string && PyStr.forall_chars is_hex_digit (remove_0x_prefix s).

(** A text matching [(0x)?[0-9a-f]{40}], letter case ignored. *)
Definition is_hex_address (s : string) : bool :=
  let body := remove_0x_prefix s in
  (String.length body =? 40)%nat && PyStr.forall_chars is_hex_digit body.

(** [to_hex(primitive)] for a value that is not a string. *)
Definition to_hex (v : json) : outcome string :=
  match v with
  | JBool true => Ret "0x1"
  | JBool false => Ret "0x0"
  | JInt n => Ret (PyStr.hex n)
  | JNull =>
      Raise TypeError
        "Exactly one of the passed values can be specified. Instead, values were: (None,), {}"
  | _ =>
      Raise TypeError
        ("Unsupported type: '<class '" ++ type_name v
           ++ "'>'. Must be one of: bool, str, bytes, bytearray or int.")
  end.

(** [hexstr_if_str(to_hex, value)] *)
Definition hexstr_if_str (value : json) : outcome string :=
  match value with
  | JStr s =>
      if negb (remove_0x_prefix s =? "")%string && negb (is_hexstr s) then
        Raise ValueError
          ("when sending a str, it must be a hex string. Got: " ++ PyRepr.of_str s)
      else Ret (add_0x_prefix (PyStr.lower s))
  | _ => to_hex value
  end.

Definition to_normalized_address (value : json) : outcome string :=
  match hexstr_if_str value with
  | Raise k t => Raise k t
  | Ret h =>
      let hex_address := PyStr.lower h in
      if is_hex_address hex_address then Ret hex_address
      else
        Raise ValueError
          ("Unknown format " ++ PyRepr.of_json value
             ++ ", attempted to normalize to " ++ PyRepr.of_str hex_address)
  end.

(** Upper-case the digits of the address whose hash nibble exceeds 7. *)
Fixpoint checksum_case (digits : string) (hash : list N) : string :=
  match digits, hash with
  | String c r, h :: hs =>
      String (if (7 <? h)%N then PyStr.upper_char c else c) (checksum_case r hs)
  | _, _ => digits
  end.

Definition to_checksum_address (value : json) : outcome string :=
  match to_normalized_address value with
  | Raise k t => Raise k t
  | Ret norm_address =>
      let digits := remove_0x_prefix norm_address in
      let address_hash :=
        Keccak.nibbles (Keccak.keccak256 (Keccak.bytes_of_string digits)) in
      Ret ("0x" ++ checksum_case digits address_hash)
  end.

End EthUtils.

(** ** [int(text, 16)] *)

Module PyInt.

Definition is_space (c : ascii) : bool :=
  let n := N_of_ascii c in ((9 <=? n) && (n <=? 13) || (n =? 32))%N.

Fixpoint skip_spaces (s : string) : string :=
  match s with
  | String c r => if is_space c then skip_spaces r else s
  | EmptyString => s
  end.

Definition digit_value (c : ascii) : option Z :=
  let n := Z.of_N (N_of_ascii c) in
  if PyStr.is_digit c then Some (n - 48)
  else if PyStr.in_range "a" "f" c then Some (n - 87)
  else if PyStr.in_range "A" "F" c then Some (n - 55)
  else None.

(** Digits with single underscores between them; the scan stops at the
    first other character and fails on a doubled or trailing underscore. *)
Fixpoint scan (s : string) (after_underscore : bool) (acc : Z) : option (Z * string) :=
  match s with
  | String c r =>
      if (c =? "_")%char then
        if after_underscore then None else scan r true acc
      else
        match digit_value c with
        | Some d => scan r false (16 * acc + d)
        | None => if after_underscore then None else Some (acc, s)
        end
  | EmptyString => if after_underscore then None else Some (acc, s)
  end.

Definition skip_sign (s : string) : bool * string :=
  match s with
  | String "+" r => (false, r)
  | String "-" r => (true, r)
  | _ => (false, s)
  end.

Definition skip_prefix (s : string) : string :=
  if EthUtils.is_0x_prefixed s then
    match EthUtils.remove_0x_prefix s with
    | String "_" r => r
    | r => r
    end
  else s.

(** Surrounding white space, a sign, an optional 0x prefix, then at
    least one digit. *)
Definition parse16 (s : string) : option Z :=
  let (negative, unsigned) := skip_sign (skip_spaces s) in
  let digits := skip_prefix unsigned in
  match digits with
  | String c _ =>
      match digit_value c, scan digits false 0 with
      | Some _, Some (v, rest) =>
          if (skip_spaces rest =? "")%string
          then Some (if negative then - v else v)
          else None
      | _, _ => None
      end
  | EmptyString => None
  end.

Definition int16 (v : json) : outcome Z :=
  match v with
  | JStr s =>
      match parse16 s with
      | Some n => Ret n
      | None =>
          Raise ValueError
            ("invalid literal for int() with base 16: " ++ PyRepr.of_str s)
      end
  | _ => Raise TypeError "int() can't convert non-string with explicit base"
  end.

End PyInt.

(** ** Configuration ([config.py]) *)

Definition CHAIN_ID : Z := 10143.

(** The values [config.py] reads from the process environment. *)
Record config : Type := {
  BASE_RPC : string;
  PAYMENT_RECIPIENT_ADDRESS : string
}.

(** The defaults [config.py] falls back to. *)
Definition default_config : config := {|
  BASE_RPC := "https://testnet-rpc.monad.xyz";
  PAYMENT_RECIPIENT_ADDRESS := "0x0000000000000000000000000000000000000001"
|}.

(** ** Effects: the node, the clock, the console *)

Inductive body : Type :=
| Json (data : json)
| NotJson (error : string).

(** What one HTTP POST comes to: an exception of the client (connection
    failure, timeout) with its text, or a response. *)
Inductive http_reply : Type :=
| Failed (error : string)
| Response (status : Z) (content : body).

(** The environment of a run.  Suspension points (requests and sleeps)
    are numbered in the order the run reaches them: [respond i] is what the
    endpoint answers when suspension [i] is a request, and [lag i] the
    milliseconds suspension [i] takes beyond its nominal duration. *)
Record network : Type := {
  respond : nat -> string -> string -> list json -> http_reply;
  lag : nat -> N
}.

Inductive event : Type :=
| Request (url method : string) (params : list json)
| Printed (line : string)
| Slept (seconds : Z).

(** The state a run threads: the event-loop clock in milliseconds (what
    [asyncio.get_event_loop().time()] reads), the number of suspension
    points passed, and the effects so far, oldest first. *)
Record world : Type := {
  now : Z;
  suspensions : nat;
  trace : list event
}.

Definition initial_world : world := {| now := 0; suspensions := 0; trace := [] |}.

(** Computations: state passing over [world], with raised exceptions. *)
Definition M (A : Type) : Type := world -> outcome A * world.

Definition ret {A : Type} (a : A) : M A := fun w => (Ret a, w).

Definition bind {A B : Type} (m : M A) (f : A -> M B) : M B :=
  fun w =>
    match m w with
    | (Ret a, w') => f a w'
    | (Raise k t, w') => (Raise k t, w')
    end.

Definition lift {A : Type} (o : outcome A) : M A := fun w => (o, w).

Declare Scope py_scope.
Delimit Scope py_scope with py.
Notation "x <- m ;; k" := (bind m (fun x => k))
  (at level 61, m at next level, right associativity) : py_scope.
Notation "m ;;; k" := (bind m (fun _ => k))
  (at level 61, right associativity) : py_scope.

(** [print(line)] *)
Definition print (line : string) : M unit :=
  fun w =>
    (Ret tt,
     {| now := now w; suspensions := suspensions w;
        trace := (trace w ++ [Printed line])%list |}).

(** [session.post(url, json=payload, timeout=...)] with the payload's
    [method] and [params]: one suspension, answered by the environment. *)
Definition post (net : network) (url method : string) (params : list json)
  : M http_reply :=
  fun w =>
    (Ret (respond net (suspensions w) url method params),
     {| now := now w + Z.of_N (lag net (suspensions w));
        suspensions := S (suspensions w);
        trace := (trace w ++ [Request url method params])%list |}).

(** [await asyncio.sleep(seconds)] *)
Definition sleep (net : network) (seconds : Z) : M unit :=
  fun w =>
    (Ret tt,
     {| now := now w + 1000 * seconds + Z.of_N (lag net (suspensions w));
        suspensions := S (suspensions w);
        trace := (trace w ++ [Slept seconds])%list |}).


(** [v == text] for a decoded value [v] and a string literal. *)
Definition is_str (v : json) (text : string) : bool :=
  match v with
  | JStr s => (s =? text)%string
  | _ => false
  end.

(** ** [payments/evm_verify.py] *)

Module EvmVerify.

Section Environment.

Variable cfg : config.
Variable net : network.

Local Open Scope py_scope.

(** The body of the [try] block shared by the two fetch functions: the
    [result] member of a 200 response, [None] for another status, and
    [None] after printing for anything that raised. *)
Definition result_of (label tx_hash : string) (reply : http_reply) : M json :=
  match reply with
  | Failed e => print (label ++ tx_hash ++ ": " ++ e) ;;; ret JNull
  | Response status content =>
      if status =? 200 then
        match content with
        | NotJson e => print (label ++ tx_hash ++ ": " ++ e) ;;; ret JNull
        | Json data =>
            match py_get data "result" JNull with
            | Ret v => ret v
            | Raise _ e => print (label ++ tx_hash ++ ": " ++ e) ;;; ret JNull
            end
        end
      else ret JNull
  end.

Definition get_transaction (tx_hash : string) : M json :=
  reply <- post net (BASE_RPC cfg) "eth_getTransactionByHash" [JStr tx_hash] ;;
  result_of "Error fetching transaction " tx_hash reply.

Definition get_transaction_receipt (tx_hash : string) : M json :=
  reply <- post net (BASE_RPC cfg) "eth_getTransactionReceipt" [JStr tx_hash] ;;
  result_of "Error fetching receipt " tx_hash reply.

(** The diagnostic texts of [verify_mon_payment], one per rejection. *)
Definition msg_invalid_address (e : string) : string :=
  "Invalid address format: " ++ e.
Definition msg_not_found (tx_hash : string) : string :=
  "Transaction " ++ tx_hash ++ " not found on chain".
Definition msg_pending (tx_hash : string) : string :=
  "Transaction " ++ tx_hash ++ " pending or not yet mined".
Definition msg_failed (tx_hash : string) (status : json) : string :=
  "Transaction " ++ tx_hash ++ " failed (status: " ++ PyRepr.str status ++ ")".
Definition msg_sender_mismatch (expected_sender tx_from : string) : string :=
  "Sender mismatch: expected " ++ expected_sender ++ ", got " ++ tx_from.
Definition msg_recipient_mismatch (recipient tx_to : string) : string :=
  "Recipient mismatch: expected " ++ recipient ++ ", got " ++ tx_to.
Definition msg_no_recipient : string :=
  "Transaction has no recipient (contract creation?)".
(** The two texts that interpolate integers: formatting one raises when
    an integer is beyond the digit limit of [str]. *)
Definition msg_amount_too_low (expected_amount_wei tx_value : Z) : outcome string :=
  match int_str expected_amount_wei with
  | Raise k t => Raise k t
  | Ret expected =>
      match int_str tx_value with
      | Raise k t => Raise k t
      | Ret got => Ret ("Amount too low: expected " ++ expected ++ ", got " ++ got)
      end
  end.
Definition msg_wrong_chain (tx_chain_id_int : Z) : outcome string :=
  match int_str CHAIN_ID with
  | Raise k t => Raise k t
  | Ret expected =>
      match int_str tx_chain_id_int with
      | Raise k t => Raise k t
      | Ret got => Ret ("Wrong chain: expected " ++ expected ++ ", got " ++ got)
      end
  end.

Definition verify_mon_payment
    (tx_hash expected_sender : string) (expected_amount_wei : Z)
  : M (bool * option string) :=
  match EthUtils.to_checksum_address (JStr expected_sender) with
  | Raise _ e => ret (false, Some (msg_invalid_address e))
  | Ret expected_sender =>
  match EthUtils.to_checksum_address (JStr (PAYMENT_RECIPIENT_ADDRESS cfg)) with
  | Raise _ e => ret (false, Some (msg_invalid_address e))
  | Ret recipient =>
      tx <- get_transaction tx_hash ;;
      if negb (truthy tx) then ret (false, Some (msg_not_found tx_hash)) else
      receipt <- get_transaction_receipt tx_hash ;;
      if negb (truthy receipt) then ret (false, Some (msg_pending tx_hash)) else
      status <- lift (py_get receipt "status" JNull) ;;
      if negb (is_str status "0x1") then ret (false, Some (msg_failed tx_hash status)) else
      sender <- lift (py_get tx "from" (JStr "")) ;;
      tx_from <- lift (EthUtils.to_checksum_address sender) ;;
      if negb (tx_from =? expected_sender)%string
      then ret (false, Some (msg_sender_mismatch expected_sender tx_from)) else
      tx_to <- lift (py_get tx "to" JNull) ;;
      if truthy tx_to then
        tx_to <- lift (EthUtils.to_checksum_address tx_to) ;;
        if negb (tx_to =? recipient)%string
        then ret (false, Some (msg_recipient_mismatch recipient tx_to)) else
        value <- lift (py_get tx "value" (JStr "0x0")) ;;
        tx_value <- lift (PyInt.int16 value) ;;
        if tx_value <? expected_amount_wei
        then text <- lift (msg_amount_too_low expected_amount_wei tx_value) ;;
             ret (false, Some text) else
        tx_chain_id <- lift (py_get tx "chainId" JNull) ;;
        if truthy tx_chain_id then
          tx_chain_id_int <- lift (PyInt.int16 tx_chain_id) ;;
          if negb (tx_chain_id_int =? CHAIN_ID)
          then text <- lift (msg_wrong_chain tx_chain_id_int) ;;
               ret (false, Some text)
          else ret (true, None)
        else ret (true, None)
      else ret (false, Some msg_no_recipient)
  end
  end.

(** The dictionary [verify_payment] returns, by key. *)
Record verification : Type := {
  verified : bool;
  tx_hash_of : string;
  error : option string;
  tx_info : json
}.

Definition verify_payment
    (tx_hash sender_address : string) (amount_wei : Z) : M verification :=
  r <- verify_mon_payment tx_hash sender_address amount_wei ;;
  let (is_valid, error) := r in
  if is_valid then
    tx <- get_transaction tx_hash ;;
    ret {| verified := true; tx_hash_of := tx_hash; error := None; tx_info := tx |}
  else
    ret {| verified := false; tx_hash_of := tx_hash; error := error; tx_info := JNull |}.

End Environment.

End EvmVerify.

(** ** [payments/base_token.py] *)

Module PaymentVerifier.

Section Environment.

Variable cfg : config.
Variable net : network.

(** The test of the retry branch: [error] is a non-empty text whose
    lower-case form mentions "pending" or "not yet mined". *)
Definition asks_to_wait (error : option string) : bool :=
  match error with
  | Some e =>
      negb (e =? "")%string
      && (PyStr.contains "pending" (PyStr.lower e)
          || PyStr.contains "not yet mined" (PyStr.lower e))
  | None => false
  end.

(** [if error:] *)
Definition is_set (error : option string) : bool :=
  match error with
  | Some e => negb (e =? "")%string
  | None => false
  end.

(** The [while] loop, one unit of fuel per evaluation of its condition;
    [None] when the fuel runs out. *)
Fixpoint polling (fuel : nat) (from_address : string) (expected_amount : Z)
    (tx_hash : string) (timeout start_time : Z) (w : world)
  : option (outcome (bool * option string) * world) :=
  match fuel with
  | O => None
  | S fuel' =>
      if now w - start_time <? 1000 * timeout then
        match EvmVerify.verify_mon_payment cfg net tx_hash from_address expected_amount w with
        | (Raise k t, w1) => Some (Raise k t, w1)
        | (Ret (is_valid, error), w1) =>
            if is_valid then Some (Ret (true, Some tx_hash), w1)
            else if asks_to_wait error then
              polling fuel' from_address expected_amount tx_hash timeout start_time
                (snd (sleep net 2 w1))
            else if is_set error then
              Some (Ret (false, None),
                    snd (print ("Payment verification failed: "
                                  ++ match error with Some e => e | None => "" end) w1))
            else
              polling fuel' from_address expected_amount tx_hash timeout start_time w1
        end
      else
        match int_str timeout with
        | Ret seconds =>
            Some (Ret (false, None),
                  snd (print ("Payment verification timed out after "
                                ++ seconds ++ "s") w))
        | Raise k t => Some (Raise k t, w)
        end
  end.

Definition verify_payment (fuel : nat) (from_address : string)
    (expected_amount : Z) (tx_hash : option string) (timeout : Z) (w : world)
  : option (outcome (bool * option string) * world) :=
  match tx_hash with
  | None => Some (Ret (false, None), w)
  | Some h =>
      if (h =? "")%string then Some (Ret (false, None), w)
      else polling fuel from_address expected_amount h timeout (now w) w
  end.

(** Fuel that covers every run with the given timeout: each retry sleeps
    two seconds. *)
Definition enough_fuel (timeout : Z) : nat := S (Z.to_nat ((timeout + 1) / 2)).

(** The attributes of an instance. *)
Record instance : Type := {
  rpc_url : string;
  recipient : string;
  chain_id : Z
}.

(** [__init__]: the attributes are read from the configuration. *)
Definition init : instance := {|
  rpc_url := BASE_RPC cfg;
  recipient := PAYMENT_RECIPIENT_ADDRESS cfg;
  chain_id := CHAIN_ID
|}.

Local Open Scope py_scope.

(** [is_connected]: the whole body is inside the [try] block, so what
    raises there, the integer conversion included, is printed and
    answered with [False]. *)
Definition is_connected (self : instance) : M bool :=
  reply <- post net (rpc_url self) "eth_chainId" [] ;;
  match reply with
  | Failed e => print ("RPC connection check failed: " ++ e) ;;; ret false
  | Response status content =>
      if status =? 200 then
        match content with
        | NotJson e => print ("RPC connection check failed: " ++ e) ;;; ret false
        | Json data =>
            match py_get data "result" JNull with
            | Raise _ e => print ("RPC connection check failed: " ++ e) ;;; ret false
            | Ret result =>
                if truthy result then
                  match PyInt.int16 result with
                  | Raise _ e => print ("RPC connection check failed: " ++ e) ;;; ret false
                  | Ret chain_id' => ret (chain_id' =? chain_id self)
                  end
                else ret false
            end
        end
      else ret false
  end.

(** [get_balance]: [None] is Python's [None], [Some n] a balance in wei. *)
Definition get_balance (self : instance) (address : string) : M (option Z) :=
  reply <- post net (rpc_url self) "eth_getBalance" [JStr address; JStr "latest"] ;;
  match reply with
  | Failed e => print ("Failed to get balance: " ++ e) ;;; ret None
  | Response status content =>
      if status =? 200 then
        match content with
        | NotJson e => print ("Failed to get balance: " ++ e) ;;; ret None
        | Json data =>
            match py_get data "result" JNull with
            | Raise _ e => print ("Failed to get balance: " ++ e) ;;; ret None
            | Ret result =>
                if truthy result then
                  match PyInt.int16 result with
                  | Raise _ e => print ("Failed to get balance: " ++ e) ;;; ret None
                  | Ret balance => ret (Some balance)
                  end
                else ret None
            end
        end
      else ret None
  end.

End Environment.

End PaymentVerifier.

(** ** The acceptance rule, clause by clause

    The clauses of the rule as the specification numbers them, stated on
    the transaction record and the receipt one attempt fetched. *)

Module Rule.

Section Clauses.

Variable cfg : config.
Variable net : network.

(** One attempt's two fetches: the transaction, then the receipt. *)
Definition fetches (tx_hash : string) (w : world) (tx receipt : json) (w2 : world) : Prop :=
  exists w1,
    EvmVerify.get_transaction cfg net tx_hash w = (Ret tx, w1)
    /\ EvmVerify.get_transaction_receipt cfg net tx_hash w1 = (Ret receipt, w2).

(** Clauses 1 to 6: both addresses normalise, the transaction and the
    receipt exist, the status is success, the sender is the expected one
    and the recipient is present and is the configured one. *)
Definition clauses_1_to_6 (expected_sender : string) (tx receipt : json) : Prop :=
  exists sender recipient tx_from tx_to,
    EthUtils.to_checksum_address (JStr expected_sender) = Ret sender
    /\ EthUtils.to_checksum_address (JStr (PAYMENT_RECIPIENT_ADDRESS cfg)) = Ret recipient
    /\ truthy tx = true
    /\ truthy receipt = true
    /\ py_get receipt "status" JNull = Ret (JStr "0x1")
    /\ py_get tx "from" (JStr "") = Ret tx_from
    /\ EthUtils.to_checksum_address tx_from = Ret sender
    /\ py_get tx "to" JNull = Ret tx_to
    /\ truthy tx_to = true
    /\ EthUtils.to_checksum_address tx_to = Ret recipient.

(** The transferred value, [int(tx.get("value", "0x0"), 16)]. *)
Definition value_of (tx : json) : outcome Z :=
  match py_get tx "value" (JStr "0x0") with
  | Ret v => PyInt.int16 v
  | Raise k t => Raise k t
  end.

(** Clause 7: the value covers the expected amount. *)
Definition clause_7 (expected_amount_wei : Z) (tx : json) : Prop :=
  exists tx_value, value_of tx = Ret tx_value /\ expected_amount_wei <= tx_value.

(** Clause 8: a chain identifier, when the record carries one, is the
    configured one. *)
Definition clause_8 (tx : json) : Prop :=
  exists tx_chain_id,
    py_get tx "chainId" JNull = Ret tx_chain_id
    /\ (truthy tx_chain_id = false \/ PyInt.int16 tx_chain_id = Ret CHAIN_ID).

(** Records an attempt reads without a fault: the receipt is an object;
    the transaction is an object whose sender is an address, whose
    recipient, when there is one, is an address, whose value decodes to
    an integer [str] converts, and whose chain identifier, when there is
    one, does too. *)
Definition well_formed (tx receipt : json) : Prop :=
  (exists status, py_get receipt "status" JNull = Ret status)
  /\ (exists tx_from,
        py_get tx "from" (JStr "") = Ret tx_from
        /\ raises (EthUtils.to_checksum_address tx_from) = false)
  /\ (exists tx_to,
        py_get tx "to" JNull = Ret tx_to
        /\ (truthy tx_to = true -> raises (EthUtils.to_checksum_address tx_to) = false))
  /\ (exists tx_value, value_of tx = Ret tx_value /\ PyStr.fits tx_value = true)
  /\ (exists tx_chain_id,
        py_get tx "chainId" JNull = Ret tx_chain_id
        /\ (truthy tx_chain_id = true ->
            exists n, PyInt.int16 tx_chain_id = Ret n /\ PyStr.fits n = true)).

End Clauses.

End Rule.

(** ** Sample runs

    A scripted endpoint and a few records, for evaluating the functions
    on concrete inputs. *)

Module Sample.

(** An endpoint that answers suspension [i] with the [i]-th reply of the
    script and refuses the connection afterwards; every suspension lags
    by [ms] milliseconds. *)
Definition scripted (replies : list http_reply) (ms : N) : network := {|
  respond := fun i _ _ _ => nth i replies (Failed "connection refused");
  lag := fun _ => ms
|}.

(** A JSON-RPC response with the given [result]. *)
Definition rpc_result (v : json) : http_reply :=
  Response 200 (Json (JObj [("jsonrpc", JStr "2.0"); ("id", JInt 1); ("result", v)])).

Definition payer : string := "0x1111111111111111111111111111111111111111".
Definition treasury : string := "0x0000000000000000000000000000000000000001".
Definition some_hash : string := "0xabc".

(** One MON, in wei. *)
Definition one_mon : Z := 1000000000000000000.

(** A transfer of one MON from [payer] to [treasury] on chain 10143. *)
Definition transfer : json :=
  JObj [("from", JStr payer); ("to", JStr treasury);
        ("value", JStr "0xde0b6b3a7640000"); ("chainId", JStr "0x279f")].


(** The same transfer signed for chain 1. *)
Definition foreign_transfer : json :=
  JObj [("from", JStr payer); ("to", JStr treasury);
        ("value", JStr "0xde0b6b3a7640000"); ("chainId", JStr "0x1")].

(** A contract creation by [payer]: no recipient. *)
Definition creation : json :=
  JObj [("from", JStr payer); ("value", JStr "0xde0b6b3a7640000");
        ("chainId", JStr "0x279f")].

(** A contract creation as a node encodes it: the recipient is null. *)
Definition null_creation : json :=
  JObj [("from", JStr payer); ("to", JNull); ("value", JStr "0xde0b6b3a7640000");
        ("chainId", JStr "0x279f")].

(** Hexadecimal text of [n] digits f. *)
Definition many_f (n : nat) : string :=
  string_of_list_ascii (repeat "f"%char n).

(** A transfer whose value is a negative number of 3600 hexadecimal
    digits: more than 4300 decimal ones. *)
Definition overlong_debit : json :=
  JObj [("from", JStr payer); ("to", JStr treasury);
        ("value", JStr ("-0x" ++ many_f 3600))].


(** A record without its sender. *)
Definition senderless : json :=
  JObj [("to", JStr treasury); ("value", JStr "0xde0b6b3a7640000")].

Definition success : json := JObj [("status", JStr "0x1")].
Definition reverted : json := JObj [("status", JStr "0x0")].

(** An endpoint that answers the transaction fetch with [tx] and the
    receipt fetch with [receipt], 100 ms each. *)
Definition node (tx receipt : json) : network :=
  scripted [rpc_result tx; rpc_result receipt] 100.

(** An endpoint that has the transfer mined only at the second attempt:
    suspension 2 is the sleep between the attempts. *)
Definition slow_node : network :=
  scripted
    [rpc_result transfer; rpc_result JNull; Failed "no request here";
     rpc_result transfer; rpc_result success] 100.

(** An endpoint that answers a third request, after the receipt, with
    another record for the same hash. *)
Definition fickle_node : network :=
  scripted [rpc_result transfer; rpc_result success; rpc_result foreign_transfer] 100.

(** An endpoint that knows no transaction: every result is null. *)
Definition empty_node : network := {|
  respond := fun _ _ _ _ => rpc_result JNull;
  lag := fun _ => 100%N
|}.

(** The world after the two fetches of an attempt that started in
    [initial_world] against an endpoint lagging 100 ms. *)
Definition after_two_fetches : world := {|
  now := 200;
  suspensions := 2;
  trace := [Request (BASE_RPC default_config) "eth_getTransactionByHash" [JStr some_hash];
            Request (BASE_RPC default_config) "eth_getTransactionReceipt" [JStr some_hash]]
|}.

Definition stranger : string := "0x2222222222222222222222222222222222222222".

(** A transfer of one MON to the treasury, sent by [stranger]. *)
Definition transfer_by_stranger : json :=
  JObj [("from", JStr stranger); ("to", JStr treasury);
        ("value", JStr "0xde0b6b3a7640000"); ("chainId", JStr "0x279f")].

(** A transfer of one MON by [payer], sent to [stranger]. *)
Definition transfer_to_stranger : json :=
  JObj [("from", JStr payer); ("to", JStr stranger);
        ("value", JStr "0xde0b6b3a7640000"); ("chainId", JStr "0x279f")].

(** The transfer as a node may spell it: addresses in upper case. *)
Definition shouted_transfer : json :=
  JObj [("from", JStr "0X1111111111111111111111111111111111111111");
        ("to", JStr "0X0000000000000000000000000000000000000001");
        ("value", JStr "0xde0b6b3a7640000")].

(** A record without its value. *)
Definition valueless : json :=
  JObj [("from", JStr payer); ("to", JStr treasury); ("chainId", JStr "0x279f")].

(** The transfer with its chain identifier as a JSON number. *)
Definition numbered_transfer : json :=
  JObj [("from", JStr payer); ("to", JStr treasury);
        ("value", JStr "0xde0b6b3a7640000"); ("chainId", JInt 10143)].

(** The world after the one fetch of an attempt that started in
    [initial_world] against an endpoint lagging 100 ms. *)
Definition after_one_fetch : world := {|
  now := 100;
  suspensions := 1;
  trace := [Request (BASE_RPC default_config) "eth_getTransactionByHash" [JStr some_hash]]
|}.

(** An endpoint that has the transfer and never its receipt. *)
Definition stuck_node : network := {|
  respond := fun _ _ method _ =>
    if (method =? "eth_getTransactionByHash")%string
    then rpc_result transfer else rpc_result JNull;
  lag := fun _ => 100%N
|}.

(** An endpoint of the Monad testnet with a balance of one MON for
    every address. *)
Definition testnet_node : network := {|
  respond := fun _ _ method _ =>
    if (method =? "eth_chainId")%string then rpc_result (JStr "0x279f")
    else rpc_result (JStr "0xde0b6b3a7640000");
  lag := fun _ => 100%N
|}.

(** The world after a third request. *)
Definition after_three_fetches : world := {|
  now := 300;
  suspensions := 3;
  trace := [Request (BASE_RPC default_config) "eth_getTransactionByHash" [JStr some_hash];
            Request (BASE_RPC default_config) "eth_getTransactionReceipt" [JStr some_hash];
            Request (BASE_RPC default_config) "eth_getTransactionByHash" [JStr some_hash]]
|}.

(** What [verify_payment] returns against [fickle_node]. *)
Definition fickle_verdict : EvmVerify.verification := {|
  EvmVerify.verified := true;
  EvmVerify.tx_hash_of := some_hash;
  EvmVerify.error := None;
  EvmVerify.tx_info := foreign_transfer
|}.

End Sample.

(** ** Paths through the polling loop *)

Module Polling.

Section Paths.

Variable cfg : config.
Variable net : network.
Variable from_address : string.
Variable expected_amount : Z.
Variable tx_hash : string.
Variable timeout start_time : Z.

(** The loop condition in world [w]. *)
Definition in_time (w : world) : Prop := now w - start_time < 1000 * timeout.

(** [retried w w']: entered in [w], the loop is back at its condition in
    [w'] after zero or more attempts that were each rejected with a text
    asking to wait, and the sleep that follows each. *)
Inductive retried : world -> world -> Prop :=
| retried_refl (w : world) : retried w w
| retried_step (w w1 w' : world) (e : option string) :
    in_time w ->
    EvmVerify.verify_mon_payment cfg net tx_hash from_address expected_amount w
    = (Ret (false, e), w1) ->
    PaymentVerifier.asks_to_wait e = true ->
    retried (snd (sleep net 2 w1)) w' ->
    retried w w'.

(** What is left of the timeout, in milliseconds, is covered by [fuel]
    retries of two seconds each. *)
Definition covered (fuel : nat) (w : world) : Prop :=
  1000 * timeout - (now w - start_time) <= 2000 * Z.of_nat fuel.

End Paths.

(** The characters of a hash in hexadecimal form: digits and the x of
    the prefix. *)
Definition hash_char (c : ascii) : bool :=
  EthUtils.is_hex_digit c || (c =? "x")%char || (c =? "X")%char.

(** Number of sleeps a trace records. *)
Definition sleeps (events : list event) : nat :=
  List.length (filter (fun e => match e with Slept _ => true | _ => false end) events).

(** Number of requests a trace records. *)
Definition requests (events : list event) : nat :=
  List.length (filter (fun e => match e with Request _ _ _ => true | _ => false end) events).

End Polling.

(** ** The effects of a verification *)

Module Effects.

Section Events.

Variable cfg : config.
Variable tx_hash : string.

(** The two read-only queries a verification of [tx_hash] sends to the
    configured endpoint. *)
Definition is_query (e : event) : Prop :=
  e = Request (BASE_RPC cfg) "eth_getTransactionByHash" [JStr tx_hash]
  \/ e = Request (BASE_RPC cfg) "eth_getTransactionReceipt" [JStr tx_hash].

(** What one attempt may do: a query, or a line on the console. *)
Definition of_attempt (e : event) : Prop :=
  is_query e \/ exists line, e = Printed line.

(** What the polling loop may do besides: sleep two seconds. *)
Definition of_polling (e : event) : Prop :=
  of_attempt e \/ e = Slept 2.

End Events.

(** A reply that carries the integer [n]: a 200 response whose body is
    an object with a [result] member that is the text of [n] in base 16. *)
Definition carries (reply : http_reply) (n : Z) : Prop :=
  exists members text,
    reply = Response 200 (Json (JObj members))
    /\ lookup "result" members = Some (JStr text)
    /\ PyInt.parse16 text = Some n.

End Effects.

(** ** Test vectors for the hash and the address form *)

Example keccak256_empty :
  hex_text (Keccak.keccak256 []) =
  "c5d2460186f7233c927e7db2dcc703c0e500b653ca82273b7bfad8045d85a470".
Proof. vm_compute. reflexivity. Qed.

Example eip55_vector_1 :
  EthUtils.to_checksum_address (JStr "0x5aaeb6053f3e94c9b9a09f33669435e7ef1beaed")
  = Ret "0x5aAeb6053F3E94C9b9A09f33669435E7Ef1BeAed".
Proof. vm_compute. reflexivity. Qed.

Example eip55_vector_2 :
  EthUtils.to_checksum_address (JStr "0XFB6916095CA1DF60BB79CE92CE3EA74C37C5D359")
  = Ret "0xfB6916095ca1df60bB79Ce92cE3Ea74c37c5d359".
Proof. vm_compute. reflexivity. Qed.

Example eip55_vector_3 :
  EthUtils.to_checksum_address (JStr "dbf03b407c01e7cd3cbea99509d93f8dddc8c6fb")
  = Ret "0xdbF03B407c01E7cD3CBea99509d93f8DDDC8C6FB".
Proof. vm_compute. reflexivity. Qed.

Example eip55_vector_4 :
  EthUtils.to_checksum_address (JStr "0xD1220A0cf47c7B9Be7A2E6BA89F429762e7b9aDb")
  = Ret "0xD1220A0cf47c7B9Be7A2E6BA89F429762e7b9aDb".
Proof. vm_compute. reflexivity. Qed.

Example checksum_of_empty_text :
  EthUtils.to_checksum_address (JStr "")
  = Raise ValueError "Unknown format '', attempted to normalize to '0x'".
Proof. vm_compute. reflexivity. Qed.

(** A null where an address is expected: the conversion refuses the
    argument before it looks at its type. *)
Example checksum_of_none :
  EthUtils.to_checksum_address JNull
  = Raise TypeError
      "Exactly one of the passed values can be specified. Instead, values were: (None,), {}".
Proof. vm_compute. reflexivity. Qed.

(** The digit limit of [str]: 10^4300 - 1 is converted, 10^4300 is not,
    whatever the sign. *)
Example digit_limit_vectors :
  map PyStr.fits [0; 10 ^ 4300 - 1; 10 ^ 4300; - (10 ^ 4300 - 1); - 10 ^ 4300]
  = [true; true; false; true; false].
Proof. vm_compute. reflexivity. Qed.

(** ** Sample evaluations of the built-ins and of the loop *)

Example int16_vectors :
  map PyInt.parse16
    [" -0x_1f_f "; "ff"; "0X10"; "0b1"; "0x1 "; "0x"; "1__0"; "_1"; "1_"; "+ 1"; "";
     "0x_"; "0_x1"; "--1"; "0x0x1"]
  = [Some (-511); Some 255; Some 16; Some 177; Some 1; None; None; None; None; None;
     None; None; None; None; None].
Proof. vm_compute. reflexivity. Qed.

Example str_vectors :
  map PyRepr.str [JNull; JBool true; JInt (-12); JStr "0x1"; JArr [JInt 1; JStr "x"]]
  = ["None"; "True"; "-12"; "0x1"; "[1, 'x']"].
Proof. vm_compute. reflexivity. Qed.

(** A receipt that appears at the second attempt: one sleep, then
    acceptance with the hash passed in. *)
Example slow_node_run :
  PaymentVerifier.verify_payment default_config Sample.slow_node
    (PaymentVerifier.enough_fuel 30) Sample.payer Sample.one_mon
    (Some Sample.some_hash) 30 initial_world
  = Some (Ret (true, Some Sample.some_hash),
          {| now := 2500; suspensions := 5;
             trace :=
               [Request (BASE_RPC default_config) "eth_getTransactionByHash" [JStr "0xabc"];
                Request (BASE_RPC default_config) "eth_getTransactionReceipt" [JStr "0xabc"];
                Slept 2;
                Request (BASE_RPC default_config) "eth_getTransactionByHash" [JStr "0xabc"];
                Request (BASE_RPC default_config) "eth_getTransactionReceipt" [JStr "0xabc"]] |}).
Proof. vm_compute. reflexivity. Qed.

(** ** Facts about text *)

Ltac by_char c := destruct c as [[] [] [] [] [] [] [] []]; reflexivity.

Lemma lower_char_keeps_hex_digit (c : ascii) :
  EthUtils.is_hex_digit (PyStr.lower_char c) = EthUtils.is_hex_digit c.
Proof. by_char c. Qed.

Lemma lower_char_keeps_zero (c : ascii) :
  (PyStr.lower_char c =? "0")%char = (c =? "0")%char.
Proof. by_char c. Qed.

Lemma lower_char_keeps_x (c : ascii) :
  ((PyStr.lower_char c =? "x")%char || (PyStr.lower_char c =? "X")%char)
  = ((c =? "x")%char || (c =? "X")%char).
Proof. by_char c. Qed.

Lemma lower_empty (s : string) :
  (PyStr.lower s =? "")%string = (s =? "")%string.
Proof. destruct s; reflexivity. Qed.

Lemma lower_keeps_hex_digits (s : string) :
  PyStr.forall_chars EthUtils.is_hex_digit (PyStr.lower s)
  = PyStr.forall_chars EthUtils.is_hex_digit s.
Proof.
  induction s as [|c r IH]; simpl; [reflexivity|].
  now rewrite lower_char_keeps_hex_digit, IH.
Qed.

Lemma lower_keeps_prefix (s : string) :
  EthUtils.is_0x_prefixed (PyStr.lower s) = EthUtils.is_0x_prefixed s.
Proof.
  destruct s as [|c0 [|c1 r]]; simpl; try reflexivity.
  now rewrite lower_char_keeps_zero, lower_char_keeps_x.
Qed.

Lemma lower_drop2 (s : string) :
  EthUtils.drop2 (PyStr.lower s) = PyStr.lower (EthUtils.drop2 s).
Proof. destruct s as [|c0 [|c1 r]]; reflexivity. Qed.

Lemma lower_remove_0x_prefix (s : string) :
  EthUtils.remove_0x_prefix (PyStr.lower s)
  = PyStr.lower (EthUtils.remove_0x_prefix s).
Proof.
  unfold EthUtils.remove_0x_prefix.
  rewrite lower_keeps_prefix, lower_drop2.
  now destruct (EthUtils.is_0x_prefixed s).
Qed.

(** The two tests [hexstr_if_str] makes on a text look at its lower-case
    form only. *)
Lemma is_hexstr_lower (s : string) :
  EthUtils.is_hexstr (PyStr.lower s) = EthUtils.is_hexstr s.
Proof.
  unfold EthUtils.is_hexstr.
  now rewrite lower_empty, lower_remove_0x_prefix, lower_keeps_hex_digits.
Qed.

Lemma unprefixed_empty_lower (s : string) :
  (EthUtils.remove_0x_prefix (PyStr.lower s) =? "")%string
  = (EthUtils.remove_0x_prefix s =? "")%string.
Proof. now rewrite lower_remove_0x_prefix, lower_empty. Qed.

(** An accepted address and a text with the same lower-case form
    normalise to the same checksummed address. *)
Lemma to_checksum_address_case (a b c : string) :
  PyStr.lower a = PyStr.lower b ->
  EthUtils.to_checksum_address (JStr a) = Ret c ->
  EthUtils.to_checksum_address (JStr b) = Ret c.
Proof.
  intros Hcase.
  unfold EthUtils.to_checksum_address, EthUtils.to_normalized_address,
    EthUtils.hexstr_if_str.
  rewrite <- (is_hexstr_lower a), <- (is_hexstr_lower b).
  rewrite <- (unprefixed_empty_lower a), <- (unprefixed_empty_lower b).
  rewrite <- Hcase.
  destruct (negb (EthUtils.remove_0x_prefix (PyStr.lower a) =? "")%string
            && negb (EthUtils.is_hexstr (PyStr.lower a))); [discriminate|].
  destruct (EthUtils.is_hex_address (PyStr.lower (EthUtils.add_0x_prefix (PyStr.lower a))));
    [auto | discriminate].
Qed.

(** Substring search against concatenation. *)
Lemma prefix_app (n s : string) : String.prefix n (n ++ s) = true.
Proof.
  induction n as [|c n IH]; simpl; [now destruct s|].
  destruct (ascii_dec c c) as [_|Hne]; [exact IH | now elim Hne].
Qed.

Lemma contains_unfold (n hay : string) :
  PyStr.contains n hay
  = String.prefix n hay
    || match hay with
       | EmptyString => false
       | String _ r => PyStr.contains n r
       end.
Proof. destruct hay; reflexivity. Qed.

Lemma contains_here (n s : string) : PyStr.contains n (n ++ s) = true.
Proof. now rewrite contains_unfold, prefix_app. Qed.

Lemma contains_app_r (n a b : string) :
  PyStr.contains n b = true -> PyStr.contains n (a ++ b) = true.
Proof.
  intros H. induction a as [|c a IH]; simpl; [exact H|].
  rewrite IH. apply orb_true_r.
Qed.

Lemma lower_app (a b : string) :
  PyStr.lower (a ++ b) = (PyStr.lower a ++ PyStr.lower b)%string.
Proof. induction a as [|c a IH]; simpl; [reflexivity | now rewrite IH]. Qed.

(** The text of a failed receipt is none of the later rejections. *)
Lemma msg_failed_mentions_failed (tx_hash : string) (status : json) :
  PyStr.contains "failed" (EvmVerify.msg_failed tx_hash status) = true.
Proof.
  unfold EvmVerify.msg_failed.
  apply (contains_app_r "failed" "Transaction ").
  apply contains_app_r.
  apply (contains_app_r "failed" " " ("failed" ++ _)).
  apply contains_here.
Qed.

Lemma msg_failed_not_no_recipient (tx_hash : string) (status : json) :
  EvmVerify.msg_no_recipient <> EvmVerify.msg_failed tx_hash status.
Proof.
  intros E.
  pose proof (msg_failed_mentions_failed tx_hash status) as H.
  rewrite <- E in H. vm_compute in H. discriminate.
Qed.

(** A text that lacks a character of the needle does not contain it. *)
Lemma prefix_chars (p : ascii -> bool) (n h : string) :
  String.prefix n h = true ->
  PyStr.exists_char p n = true -> PyStr.exists_char p h = true.
Proof.
  revert h. induction n as [|c n IH]; intros h Hpre Hex; [discriminate Hex|].
  destruct h as [|d h]; simpl in Hpre; [discriminate Hpre|].
  destruct (ascii_dec c d) as [<-|]; [|discriminate Hpre].
  simpl in *. destruct (p c); [reflexivity|]. simpl in *. eauto.
Qed.

Lemma contains_chars (p : ascii -> bool) (n h : string) :
  PyStr.exists_char p n = true ->
  PyStr.exists_char p h = false ->
  PyStr.contains n h = false.
Proof.
  intros Hn. induction h as [|d h IH]; intros Hh; rewrite contains_unfold;
    destruct (String.prefix n _) eqn:Hpre;
    try (rewrite (prefix_chars p n _ Hpre Hn) in Hh; discriminate Hh).
  - reflexivity.
  - simpl in Hh. apply orb_false_iff in Hh. now apply IH.
Qed.

Lemma exists_char_app (p : ascii -> bool) (a b : string) :
  PyStr.exists_char p (a ++ b) = PyStr.exists_char p a || PyStr.exists_char p b.
Proof.
  induction a as [|c a IH]; simpl; [reflexivity|].
  now rewrite IH, orb_assoc.
Qed.

Lemma hash_char_not (q c : ascii) :
  Polling.hash_char (PyStr.lower_char q) = false ->
  Polling.hash_char c = true ->
  (PyStr.lower_char c =? PyStr.lower_char q)%char = false.
Proof.
  intros Hq Hc.
  destruct (Ascii.eqb_spec (PyStr.lower_char c) (PyStr.lower_char q)) as [E|]; [|reflexivity].
  rewrite <- E in Hq. revert Hc Hq. clear.
  destruct c as [[] [] [] [] [] [] [] []]; vm_compute; congruence.
Qed.

Lemma lower_hash_lacks (q : ascii) (s : string) :
  Polling.hash_char (PyStr.lower_char q) = false ->
  PyStr.forall_chars Polling.hash_char s = true ->
  PyStr.exists_char (fun c => (c =? PyStr.lower_char q)%char) (PyStr.lower s) = false.
Proof.
  intros Hq. induction s as [|c s IH]; simpl; [reflexivity|].
  intros H. apply andb_true_iff in H as [Hc Hs].
  now rewrite (hash_char_not q c Hq Hc), IH.
Qed.

(** ** Running the acceptance rule *)

Arguments EthUtils.to_checksum_address : simpl never.
Arguments PyInt.int16 : simpl never.
Arguments py_get : simpl never.
Arguments truthy : simpl never.
Arguments EvmVerify.get_transaction : simpl never.
Arguments EvmVerify.get_transaction_receipt : simpl never.
Arguments PyStr.fits : simpl never.
Arguments int_str : simpl never.
Arguments EvmVerify.msg_amount_too_low : simpl never.
Arguments EvmVerify.msg_wrong_chain : simpl never.

(** ** The texts that interpolate integers *)

Lemma int_str_inv n text :
  int_str n = Ret text -> PyStr.fits n = true /\ text = PyStr.of_Z n.
Proof.
  unfold int_str. destruct (PyStr.fits n); [|discriminate].
  intros [= <-]. auto.
Qed.

Lemma int_str_fits n : PyStr.fits n = true -> int_str n = Ret (PyStr.of_Z n).
Proof. intros H. unfold int_str. now rewrite H. Qed.

Lemma int_str_limit n :
  PyStr.fits n = false -> exists t, int_str n = Raise ValueError t.
Proof. intros H. unfold int_str. rewrite H. eauto. Qed.

Lemma msg_amount_too_low_fits a v :
  PyStr.fits a = true -> PyStr.fits v = true ->
  EvmVerify.msg_amount_too_low a v
  = Ret ("Amount too low: expected " ++ PyStr.of_Z a ++ ", got " ++ PyStr.of_Z v).
Proof.
  intros Ha Hv. unfold EvmVerify.msg_amount_too_low, int_str. now rewrite Ha, Hv.
Qed.

Lemma msg_amount_too_low_inv a v text :
  EvmVerify.msg_amount_too_low a v = Ret text ->
  PyStr.fits a = true /\ PyStr.fits v = true
  /\ text = "Amount too low: expected " ++ PyStr.of_Z a ++ ", got " ++ PyStr.of_Z v.
Proof.
  unfold EvmVerify.msg_amount_too_low.
  destruct (int_str a) as [sa|] eqn:Ea; [|discriminate].
  destruct (int_str v) as [sv|] eqn:Ev; [|discriminate].
  apply int_str_inv in Ea, Ev. destruct Ea as (Ha & ->), Ev as (Hv & ->).
  intros [= <-]. auto.
Qed.

Lemma msg_amount_too_low_limit a v :
  PyStr.fits a && PyStr.fits v = false ->
  exists t, EvmVerify.msg_amount_too_low a v = Raise ValueError t.
Proof.
  unfold EvmVerify.msg_amount_too_low, int_str.
  destruct (PyStr.fits a); [|eauto].
  destruct (PyStr.fits v); [discriminate | eauto].
Qed.

Lemma chain_id_fits : PyStr.fits CHAIN_ID = true.
Proof. vm_compute. reflexivity. Qed.

Lemma msg_wrong_chain_fits n :
  PyStr.fits n = true ->
  EvmVerify.msg_wrong_chain n
  = Ret ("Wrong chain: expected " ++ PyStr.of_Z CHAIN_ID ++ ", got " ++ PyStr.of_Z n).
Proof.
  intros Hn. unfold EvmVerify.msg_wrong_chain, int_str.
  now rewrite chain_id_fits, Hn.
Qed.

Lemma msg_wrong_chain_inv n text :
  EvmVerify.msg_wrong_chain n = Ret text ->
  PyStr.fits n = true
  /\ text = "Wrong chain: expected " ++ PyStr.of_Z CHAIN_ID ++ ", got " ++ PyStr.of_Z n.
Proof.
  unfold EvmVerify.msg_wrong_chain.
  destruct (int_str CHAIN_ID) as [sa|] eqn:Ea; [|discriminate].
  destruct (int_str n) as [sv|] eqn:Ev; [|discriminate].
  apply int_str_inv in Ea, Ev. destruct Ea as (_ & ->), Ev as (Hv & ->).
  intros [= <-]. auto.
Qed.

Section RuleFacts.

Variable cfg : config.
Variable net : network.

Abbreviation verify_mon_payment := (EvmVerify.verify_mon_payment cfg net).

(** A run that passes clauses 1 to 6 comes down to the value and chain
    checks on the fetched transaction. *)
Lemma run_past_clause_6 tx_hash expected_sender amount w tx receipt w2 :
  Rule.fetches cfg net tx_hash w tx receipt w2 ->
  Rule.clauses_1_to_6 cfg expected_sender tx receipt ->
  verify_mon_payment tx_hash expected_sender amount w =
  match Rule.value_of tx with
  | Raise k t => (Raise k t, w2)
  | Ret tx_value =>
      if tx_value <? amount
      then
        match EvmVerify.msg_amount_too_low amount tx_value with
        | Raise k t => (Raise k t, w2)
        | Ret text => (Ret (false, Some text), w2)
        end
      else
        match py_get tx "chainId" JNull with
        | Raise k t => (Raise k t, w2)
        | Ret tx_chain_id =>
            if truthy tx_chain_id then
              match PyInt.int16 tx_chain_id with
              | Raise k t => (Raise k t, w2)
              | Ret n =>
                  if negb (n =? CHAIN_ID)
                  then
                    match EvmVerify.msg_wrong_chain n with
                    | Raise k t => (Raise k t, w2)
                    | Ret text => (Ret (false, Some text), w2)
                    end
                  else (Ret (true, None), w2)
              end
            else (Ret (true, None), w2)
        end
  end.
Proof.
  intros (w1 & Htx & Hreceipt)
    (sender & recipient & tx_from & tx_to & Hs & Hr & Htt & Htr & Hst & Hf & Hfa & Hto & Htot & Htoa).
  unfold EvmVerify.verify_mon_payment, Rule.value_of.
  rewrite Hs, Hr. unfold bind, lift, ret.
  rewrite Htx, Htt. simpl. rewrite Hreceipt, Htr. simpl.
  rewrite Hst. simpl. rewrite Hf, Hfa. rewrite String.eqb_refl. simpl.
  rewrite Hto, Htot, Htoa. rewrite String.eqb_refl. simpl.
  destruct (py_get tx "value" (JStr "0x0")) as [v|k t]; [|reflexivity].
  destruct (PyInt.int16 v) as [n|k t]; [|reflexivity].
  destruct (n <? amount);
    [now destruct (EvmVerify.msg_amount_too_low amount n)|].
  destruct (py_get tx "chainId" JNull) as [c|k t]; [|reflexivity].
  destruct (truthy c); [|reflexivity].
  destruct (PyInt.int16 c) as [m|k t]; [|reflexivity].
  destruct (negb (m =? CHAIN_ID)); [|reflexivity].
  now destruct (EvmVerify.msg_wrong_chain m).
Qed.

End RuleFacts.

(** The sample transfers pass clauses 1 to 6. *)
Lemma sample_fetches (tx receipt : json) :
  Rule.fetches default_config (Sample.node tx receipt)
    Sample.some_hash initial_world tx receipt Sample.after_two_fetches.
Proof.
  exists {| now := 100; suspensions := 1;
            trace := [Request (BASE_RPC default_config) "eth_getTransactionByHash"
                        [JStr Sample.some_hash]] |}.
  split; reflexivity.
Qed.

Lemma sample_clauses (rest : list (string * json)) :
  Rule.clauses_1_to_6 default_config Sample.payer
    (JObj (("from", JStr Sample.payer) :: ("to", JStr Sample.treasury) :: rest))
    Sample.success.
Proof.
  exists Sample.payer, Sample.treasury, (JStr Sample.payer), (JStr Sample.treasury).
  repeat split; vm_compute; reflexivity.
Qed.

Section Gateway.

Variable cfg : config.
Variable net : network.

(** The fetch functions return on every reply, leave the clock where the
    request left it, and add one suspension. *)
Lemma result_of_returns label tx_hash reply w :
  exists v w',
    EvmVerify.result_of label tx_hash reply w = (Ret v, w')
    /\ now w' = now w /\ suspensions w' = suspensions w.
Proof.
  unfold EvmVerify.result_of, bind, print, ret.
  destruct reply as [e|status [data|e]]; [eauto| |].
  - destruct (status =? 200); [|eauto].
    destruct (py_get data "result" JNull); eauto.
  - destruct (status =? 200); eauto.
Qed.

Lemma get_transaction_returns tx_hash w :
  exists tx w1,
    EvmVerify.get_transaction cfg net tx_hash w = (Ret tx, w1)
    /\ now w1 = now w + Z.of_N (lag net (suspensions w))
    /\ suspensions w1 = S (suspensions w).
Proof.
  unfold EvmVerify.get_transaction, bind, post.
  match goal with
  | |- context [EvmVerify.result_of ?l ?h ?r ?x] =>
      destruct (result_of_returns l h r x) as (v & w' & -> & Hnow & Hcount)
  end.
  exists v, w'. simpl in *. auto.
Qed.

Lemma get_transaction_receipt_returns tx_hash w :
  exists receipt w1,
    EvmVerify.get_transaction_receipt cfg net tx_hash w = (Ret receipt, w1)
    /\ now w1 = now w + Z.of_N (lag net (suspensions w))
    /\ suspensions w1 = S (suspensions w).
Proof.
  unfold EvmVerify.get_transaction_receipt, bind, post.
  match goal with
  | |- context [EvmVerify.result_of ?l ?h ?r ?x] =>
      destruct (result_of_returns l h r x) as (v & w' & -> & Hnow & Hcount)
  end.
  exists v, w'. simpl in *. auto.
Qed.

End Gateway.

Section RuleSoundness.

Variable cfg : config.
Variable net : network.

Abbreviation vmp := (EvmVerify.verify_mon_payment cfg net).

Ltac split_run H :=
  repeat (match type of H with
          | context [match ?x with _ => _ end] => destruct x eqn:?
          end; cbn [negb] in H).

Ltac stuck :=
  let E := fresh in
  intros E; cbv beta iota delta [ret negb] in E; discriminate E.

(** Where an attempt ends: in the world it started in (an address did
    not normalise), after the transaction fetch (nothing found), or
    after both fetches. *)
Lemma attempt_worlds tx_hash expected_sender amount w r w' :
  vmp tx_hash expected_sender amount w = (r, w') ->
  w' = w
  \/ (exists tx, EvmVerify.get_transaction cfg net tx_hash w = (Ret tx, w'))
  \/ (exists tx receipt, Rule.fetches cfg net tx_hash w tx receipt w').
Proof.
  unfold EvmVerify.verify_mon_payment.
  destruct (EthUtils.to_checksum_address (JStr expected_sender)) as [s|k t];
    [|unfold ret; intros [= _ <-]; auto].
  destruct (EthUtils.to_checksum_address _) as [rc|k t];
    [|unfold ret; intros [= _ <-]; auto].
  unfold bind at 1.
  destruct (get_transaction_returns cfg net tx_hash w) as (tx & w1 & Htx & _).
  rewrite Htx.
  destruct (negb (truthy tx)); [unfold ret; intros [= _ <-]; eauto|].
  unfold bind at 1.
  destruct (get_transaction_receipt_returns cfg net tx_hash w1) as (rcpt & w2 & Hrc & _).
  rewrite Hrc.
  intros H. right. right. exists tx, rcpt.
  enough (w' = w2) as -> by (exists w1; auto).
  unfold bind, lift, ret in H.
  split_run H; now inversion H.
Qed.

(** The clock never runs backwards during an attempt. *)
Lemma attempt_clock tx_hash expected_sender amount w r w' :
  vmp tx_hash expected_sender amount w = (r, w') -> now w <= now w'.
Proof.
  intros H. apply attempt_worlds in H.
  destruct H as [-> | [(tx & Htx) | (tx & rcpt & w1 & Htx & Hrc)]]; [lia| |].
  - destruct (get_transaction_returns cfg net tx_hash w) as (? & ? & E & Hnow & _).
    rewrite E in Htx. injection Htx as _ <-. lia.
  - destruct (get_transaction_returns cfg net tx_hash w) as (? & ? & E & Hnow & _).
    rewrite E in Htx. injection Htx as _ <-.
    destruct (get_transaction_receipt_returns cfg net tx_hash x0) as (? & ? & E' & Hnow' & _).
    rewrite E' in Hrc. injection Hrc as _ <-. lia.
Qed.

(** Every rejection carries a non-empty text. *)
Lemma rejection_text_set tx_hash expected_sender amount w e w' :
  vmp tx_hash expected_sender amount w = (Ret (false, e), w') ->
  PaymentVerifier.is_set e = true.
Proof.
  unfold EvmVerify.verify_mon_payment, bind, lift, ret.
  intros H. split_run H; inversion H; subst; try reflexivity;
    match goal with
    | E : EvmVerify.msg_amount_too_low _ _ = Ret _ |- _ =>
        apply msg_amount_too_low_inv in E; destruct E as (_ & _ & ->); reflexivity
    | E : EvmVerify.msg_wrong_chain _ = Ret _ |- _ =>
        apply msg_wrong_chain_inv in E; destruct E as (_ & ->); reflexivity
    end.
Qed.

(** An accepted attempt fetched a transaction and a receipt for which
    every clause of the rule holds. *)
Lemma accepted_sound tx_hash expected_sender amount w e w' :
  vmp tx_hash expected_sender amount w = (Ret (true, e), w') ->
  e = None
  /\ exists tx receipt,
       Rule.fetches cfg net tx_hash w tx receipt w'
       /\ Rule.clauses_1_to_6 cfg expected_sender tx receipt
       /\ Rule.clause_7 amount tx
       /\ Rule.clause_8 tx.
Proof.
  unfold EvmVerify.verify_mon_payment.
  destruct (EthUtils.to_checksum_address (JStr expected_sender)) as [s|k t] eqn:Hs;
    [|stuck].
  destruct (EthUtils.to_checksum_address (JStr (PAYMENT_RECIPIENT_ADDRESS cfg)))
    as [rc|k t] eqn:Hr;
    [|stuck].
  unfold bind at 1.
  destruct (EvmVerify.get_transaction cfg net tx_hash w) as [[tx|k t] w1] eqn:Htx;
    [|stuck].
  cbv beta iota.
  destruct (truthy tx) eqn:Htt; [|stuck]. cbn [negb].
  unfold bind at 1.
  destruct (EvmVerify.get_transaction_receipt cfg net tx_hash w1) as [[rcpt|k t] w2] eqn:Hrc;
    [|stuck].
  cbv beta iota.
  destruct (truthy rcpt) eqn:Htr; [|stuck]. cbn [negb].
  unfold bind, lift, ret.
  destruct (py_get rcpt "status" JNull) as [status|k t] eqn:Hstatus; [|stuck].
  destruct (is_str status "0x1") eqn:His; [|stuck]. cbn [negb].
  destruct (py_get tx "from" (JStr "")) as [tx_from|k t] eqn:Hfrom; [|stuck].
  destruct (EthUtils.to_checksum_address tx_from) as [a|k t] eqn:Ha; [|stuck].
  destruct (a =? s)%string eqn:Has; [|stuck]. cbn [negb].
  apply String.eqb_eq in Has. subst a.
  destruct (py_get tx "to" JNull) as [tx_to|k t] eqn:Hto; [|stuck].
  destruct (truthy tx_to) eqn:Htot; [|stuck].
  destruct (EthUtils.to_checksum_address tx_to) as [b|k t] eqn:Hb; [|stuck].
  destruct (b =? rc)%string eqn:Hbr; [|stuck]. cbn [negb].
  apply String.eqb_eq in Hbr. subst b.
  destruct (py_get tx "value" (JStr "0x0")) as [value|k t] eqn:Hvalue; [|stuck].
  destruct (PyInt.int16 value) as [tx_value|k t] eqn:Hint; [|stuck].
  destruct (Z.ltb_spec tx_value amount) as [|Hcovers];
    [destruct (EvmVerify.msg_amount_too_low amount tx_value); discriminate|].
  assert (Hstatus' : py_get rcpt "status" JNull = Ret (JStr "0x1")).
  { rewrite Hstatus. destruct status; try discriminate.
    apply String.eqb_eq in His. now subst. }
  assert (H7 : Rule.clause_7 amount tx).
  { exists tx_value. unfold Rule.value_of. rewrite Hvalue. auto. }
  assert (H16 : Rule.clauses_1_to_6 cfg expected_sender tx rcpt).
  { exists s, rc, tx_from, tx_to. repeat split; assumption. }
  destruct (py_get tx "chainId" JNull) as [c|k t] eqn:Hc; [|stuck].
  destruct (truthy c) eqn:Hct.
  - destruct (PyInt.int16 c) as [n|k t] eqn:Hn; [|stuck].
    destruct (Z.eqb_spec n CHAIN_ID) as [->|];
      [|cbn [negb]; destruct (EvmVerify.msg_wrong_chain n); discriminate]. cbn [negb].
    intros [= <- <-]. split; [reflexivity|].
    exists tx, rcpt. repeat split; try assumption.
    + exists w1. auto.
    + exists c. auto.
  - intros [= <- <-]. split; [reflexivity|].
    exists tx, rcpt. repeat split; try assumption.
    + exists w1. auto.
    + exists c. auto.
Qed.

End RuleSoundness.

(** ** The polling loop *)

Arguments EvmVerify.verify_mon_payment : simpl never.
Arguments PaymentVerifier.asks_to_wait : simpl never.
Arguments PaymentVerifier.is_set : simpl never.
Arguments print : simpl never.
Arguments sleep : simpl never.

Section LoopFacts.

Variable cfg : config.
Variable net : network.
Variable from_address : string.
Variable expected_amount : Z.
Variable tx_hash : string.
Variable timeout start_time : Z.

Abbreviation polling fuel :=
  (PaymentVerifier.polling cfg net fuel from_address expected_amount tx_hash
     timeout start_time).
Abbreviation attempt :=
  (EvmVerify.verify_mon_payment cfg net tx_hash from_address expected_amount).
Abbreviation retried :=
  (Polling.retried cfg net from_address expected_amount tx_hash timeout start_time).
Abbreviation in_time := (Polling.in_time timeout start_time).

Abbreviation covered := (Polling.covered timeout start_time).

Lemma sleep_clock seconds w :
  now w + 1000 * seconds <= now (snd (sleep net seconds w)).
Proof. unfold sleep. simpl. lia. Qed.

Lemma covered_after_retry fuel w r w1 :
  in_time w ->
  covered fuel w ->
  attempt w = (r, w1) ->
  exists fuel', fuel = S fuel' /\ covered fuel' (snd (sleep net 2 w1)).
Proof.
  unfold Polling.in_time, Polling.covered. intros Hin Hcov Hrun.
  apply attempt_clock in Hrun.
  pose proof (sleep_clock 2 w1) as Hsleep.
  destruct fuel as [|fuel']; [lia|].
  exists fuel'. split; [reflexivity | lia].
Qed.

(** With the remaining time covered, the loop returns. *)
Lemma polling_total fuel :
  forall w, covered fuel w -> exists r w', polling (S fuel) w = Some (r, w').
Proof.
  induction fuel as [|fuel IH]; intros w Hcov; cbn [PaymentVerifier.polling].
  - destruct (Z.ltb_spec (now w - start_time) (1000 * timeout)) as [Hin|Hout];
      [|destruct (int_str timeout); eauto].
    unfold Polling.covered in Hcov. lia.
  - destruct (Z.ltb_spec (now w - start_time) (1000 * timeout)) as [Hin|Hout];
      [|destruct (int_str timeout); eauto].
    destruct (attempt w) as [[[[|] e]|k t] w1] eqn:Hrun; [eauto| |eauto].
    destruct (PaymentVerifier.asks_to_wait e) eqn:Hwait.
    + destruct (covered_after_retry _ _ _ _ Hin Hcov Hrun) as (f & [= <-] & Hcov').
      apply (IH _ Hcov').
    + rewrite (rejection_text_set _ _ _ _ _ _ _ _ Hrun). eauto.
Qed.

(** A returned pair is (true, the hash) or (false, None). *)
Lemma polling_shape fuel :
  forall w b x w',
    polling fuel w = Some (Ret (b, x), w') ->
    (b = true /\ x = Some tx_hash) \/ (b = false /\ x = None).
Proof.
  induction fuel as [|fuel IH]; intros w b x w'; cbn [PaymentVerifier.polling]; [discriminate|].
  destruct (now w - start_time <? 1000 * timeout);
    [|destruct (int_str timeout); [intros [= <- <- _]; auto | discriminate]].
  destruct (attempt w) as [[[[|] e]|k t] w1]; [intros [= <- <- _]; auto| |discriminate].
  destruct (PaymentVerifier.asks_to_wait e); [apply IH|].
  destruct (PaymentVerifier.is_set e); [intros [= <- <- _]; auto | apply IH].
Qed.

(** A run that returns true went through retries to an attempt, made in
    time, that the rule accepted. *)
Lemma polling_accepts_sound fuel :
  forall w x w',
    polling fuel w = Some (Ret (true, x), w') ->
    exists wk, retried w wk /\ in_time wk /\ attempt wk = (Ret (true, None), w').
Proof.
  induction fuel as [|fuel IH]; intros w x w'; cbn [PaymentVerifier.polling]; [discriminate|].
  destruct (Z.ltb_spec (now w - start_time) (1000 * timeout)) as [Hin|Hout];
    [|destruct (int_str timeout); discriminate].
  destruct (attempt w) as [[[[|] e]|k t] w1] eqn:Hrun; [| |discriminate].
  - intros [= _ <-]. exists w. split; [constructor|]. split; [exact Hin|].
    destruct (accepted_sound _ _ _ _ _ _ _ _ Hrun) as [-> _]. exact Hrun.
  - destruct (PaymentVerifier.asks_to_wait e) eqn:Hwait.
    + intros Hrest. destruct (IH _ _ _ Hrest) as (wk & Hpath & Hk).
      exists wk. split; [|exact Hk].
      eapply Polling.retried_step; eauto.
    + rewrite (rejection_text_set _ _ _ _ _ _ _ _ Hrun). discriminate.
Qed.

(** Retries do not change what the loop returns: entered in [w] with the
    remaining time covered, it returns what it returns when entered in
    [wk], where the remaining time is covered as well. *)
Lemma polling_retried w wk :
  retried w wk ->
  forall fuel, covered fuel w ->
    exists fuel', covered fuel' wk /\ polling (S fuel) w = polling (S fuel') wk.
Proof.
  induction 1 as [w | w w1 wk e Hin Hrun Hwait Hpath IH]; intros fuel Hcov.
  - exists fuel. auto.
  - destruct (covered_after_retry _ _ _ _ Hin Hcov Hrun) as (f & -> & Hcov').
    destruct (IH f Hcov') as (f' & Hcov'' & Hsame).
    exists f'. split; [exact Hcov''|].
    rewrite <- Hsame. cbn [PaymentVerifier.polling].
    apply Z.ltb_lt in Hin. now rewrite Hin, Hrun, Hwait.
Qed.

(** The three ways the loop ends once it is back at its condition. *)
Lemma polling_accepted fuel w e w' :
  in_time w -> attempt w = (Ret (true, e), w') ->
  polling (S fuel) w = Some (Ret (true, Some tx_hash), w').
Proof.
  intros Hin Hrun. cbn [PaymentVerifier.polling].
  apply Z.ltb_lt in Hin. now rewrite Hin, Hrun.
Qed.

Lemma polling_rejected fuel w e w1 :
  in_time w -> attempt w = (Ret (false, e), w1) ->
  PaymentVerifier.asks_to_wait e = false ->
  polling (S fuel) w
  = Some (Ret (false, None),
          snd (print ("Payment verification failed: "
                        ++ match e with Some text => text | None => "" end) w1)).
Proof.
  intros Hin Hrun Hwait. cbn [PaymentVerifier.polling].
  apply Z.ltb_lt in Hin.
  now rewrite Hin, Hrun, Hwait, (rejection_text_set _ _ _ _ _ _ _ _ Hrun).
Qed.

Lemma polling_raised fuel w k t w1 :
  in_time w -> attempt w = (Raise k t, w1) ->
  polling (S fuel) w = Some (Raise k t, w1).
Proof.
  intros Hin Hrun. cbn [PaymentVerifier.polling].
  apply Z.ltb_lt in Hin. now rewrite Hin, Hrun.
Qed.

Lemma polling_timed_out fuel w :
  ~ in_time w ->
  polling (S fuel) w
  = match int_str timeout with
    | Ret seconds =>
        Some (Ret (false, None),
              snd (print ("Payment verification timed out after " ++ seconds ++ "s") w))
    | Raise k t => Some (Raise k t, w)
    end.
Proof.
  intros Hout. cbn [PaymentVerifier.polling].
  unfold Polling.in_time in Hout.
  destruct (Z.ltb_spec (now w - start_time) (1000 * timeout)); [contradiction|].
  reflexivity.
Qed.

End LoopFacts.

Lemma enough_fuel_covers timeout fuel w :
  (PaymentVerifier.enough_fuel timeout <= fuel)%nat ->
  exists f, fuel = S f /\ Polling.covered timeout (now w) f w.
Proof.
  unfold PaymentVerifier.enough_fuel, Polling.covered. intros H.
  destruct fuel as [|f]; [lia|]. exists f. split; [reflexivity|].
  assert (Hf : (Z.to_nat ((timeout + 1) / 2) <= f)%nat) by lia.
  destruct (Z.le_gt_cases timeout 0) as [Hneg|Hpos]; [lia|].
  assert (timeout <= 2 * ((timeout + 1) / 2)).
  { pose proof (Z.div_mod (timeout + 1) 2 ltac:(lia)).
    pose proof (Z.mod_pos_bound (timeout + 1) 2 ltac:(lia)). lia. }
  lia.
Qed.

(** ** The claims about the acceptance rule *)

Section RuleClaims.

Variable cfg : config.
Variable net : network.

Abbreviation verify_mon_payment := (EvmVerify.verify_mon_payment cfg net).



End RuleClaims.



(** A value of 3600 hexadecimal digits below zero passes clauses 1 to 6
    and is below every expected amount; the AmountTooLow text cannot be
    formatted and the attempt raises. *)
Example overlong_value_raises :
  EvmVerify.verify_mon_payment default_config
    (Sample.node Sample.overlong_debit Sample.success)
    Sample.some_hash Sample.payer Sample.one_mon initial_world
  = (Raise ValueError
       "Exceeds the limit (4300 digits) for integer string conversion; use sys.set_int_max_str_digits() to increase the limit",
     Sample.after_two_fetches).
Proof. vm_compute. reflexivity. Qed.



Section ReceiptClaims.

Variable cfg : config.
Variable net : network.

Abbreviation verify_mon_payment := (EvmVerify.verify_mon_payment cfg net).

(** C5: once the addresses normalise and the transaction and the receipt
    exist, the run is rejected with the TransactionFailed text exactly
    when the receipt's status member is not the string "0x1"; an absent
    member reads as None and is rejected likewise. *)
Theorem C5_receipt_status tx_hash expected_sender amount w tx receipt w2
    sender recipient status :
  Rule.fetches cfg net tx_hash w tx receipt w2 ->
  EthUtils.to_checksum_address (JStr expected_sender) = Ret sender ->
  EthUtils.to_checksum_address (JStr (PAYMENT_RECIPIENT_ADDRESS cfg)) = Ret recipient ->
  truthy tx = true ->
  truthy receipt = true ->
  py_get receipt "status" JNull = Ret status ->
  (is_str status "0x1" = false ->
   verify_mon_payment tx_hash expected_sender amount w
   = (Ret (false, Some (EvmVerify.msg_failed tx_hash status)), w2))
  /\ (is_str status "0x1" = true ->
      forall s,
        fst (verify_mon_payment tx_hash expected_sender amount w)
        <> Ret (false, Some (EvmVerify.msg_failed tx_hash s))).
Proof.
  intros (w1 & Htx & Hreceipt) Hs Hr Htt Htr Hstatus.
  unfold EvmVerify.verify_mon_payment.
  rewrite Hs, Hr. unfold bind, lift, ret.
  rewrite Htx, Htt. simpl. rewrite Hreceipt, Htr. simpl.
  rewrite Hstatus. simpl.
  split; intros His; rewrite His; simpl; [reflexivity|].
  intros s.
  repeat (match goal with
          | |- context [match EvmVerify.msg_amount_too_low ?a ?v with _ => _ end] =>
              let E := fresh "E" in
              destruct (EvmVerify.msg_amount_too_low a v) eqn:E;
              [apply msg_amount_too_low_inv in E; destruct E as (_ & _ & ->)|]
          | |- context [match EvmVerify.msg_wrong_chain ?n with _ => _ end] =>
              let E := fresh "E" in
              destruct (EvmVerify.msg_wrong_chain n) eqn:E;
              [apply msg_wrong_chain_inv in E; destruct E as (_ & ->)|]
          | |- context [match ?x with _ => _ end] => destruct x
          end; cbn [fst negb]);
    try discriminate.
  intros E. apply (msg_failed_not_no_recipient tx_hash s). congruence.
Qed.

(** C6: a record whose [to] field is absent, null or otherwise falsy,
    with a successful receipt and the expected sender, is rejected with
    the NoRecipient text whatever the expected amount. *)
Theorem C6_no_recipient tx_hash expected_sender amount w tx receipt w2
    sender recipient tx_from tx_to :
  Rule.fetches cfg net tx_hash w tx receipt w2 ->
  EthUtils.to_checksum_address (JStr expected_sender) = Ret sender ->
  EthUtils.to_checksum_address (JStr (PAYMENT_RECIPIENT_ADDRESS cfg)) = Ret recipient ->
  truthy tx = true ->
  truthy receipt = true ->
  py_get receipt "status" JNull = Ret (JStr "0x1") ->
  py_get tx "from" (JStr "") = Ret tx_from ->
  EthUtils.to_checksum_address tx_from = Ret sender ->
  py_get tx "to" JNull = Ret tx_to ->
  truthy tx_to = false ->
  verify_mon_payment tx_hash expected_sender amount w
  = (Ret (false, Some EvmVerify.msg_no_recipient), w2).
Proof.
  intros (w1 & Htx & Hreceipt) Hs Hr Htt Htr Hstatus Hfrom Hmatch Hto Hfalsy.
  unfold EvmVerify.verify_mon_payment.
  rewrite Hs, Hr. unfold bind, lift, ret.
  rewrite Htx, Htt. simpl. rewrite Hreceipt, Htr. simpl.
  rewrite Hstatus. simpl.
  rewrite Hfrom, Hmatch, String.eqb_refl. simpl.
  rewrite Hto, Hfalsy. reflexivity.
Qed.

End ReceiptClaims.

(** A receipt with status 0x0. *)
Lemma C5_witness :
  EvmVerify.verify_mon_payment default_config
    (Sample.node Sample.transfer Sample.reverted)
    Sample.some_hash Sample.payer Sample.one_mon initial_world
  = (Ret (false, Some "Transaction 0xabc failed (status: 0x0)"), Sample.after_two_fetches).
Proof.
  apply (proj1 (C5_receipt_status default_config _ _ Sample.payer Sample.one_mon _ _ _ _
                  Sample.payer Sample.treasury (JStr "0x0")
                  (sample_fetches Sample.transfer Sample.reverted)
                  ltac:(vm_compute; reflexivity) ltac:(vm_compute; reflexivity)
                  eq_refl eq_refl eq_refl)).
  reflexivity.
Defined.

(** A contract creation, with nothing expected: once as a record without
    the [to] member, once with a null one. *)
Lemma C6_witness :
  EvmVerify.verify_mon_payment default_config
    (Sample.node Sample.creation Sample.success)
    Sample.some_hash Sample.payer 0 initial_world
  = (Ret (false, Some "Transaction has no recipient (contract creation?)"),
     Sample.after_two_fetches)
  /\ EvmVerify.verify_mon_payment default_config
       (Sample.node Sample.null_creation Sample.success)
       Sample.some_hash Sample.payer 0 initial_world
     = (Ret (false, Some "Transaction has no recipient (contract creation?)"),
        Sample.after_two_fetches).
Proof.
  split.
  - apply (C6_no_recipient default_config _ _ Sample.payer 0 _ _ _ _
             Sample.payer Sample.treasury (JStr Sample.payer) JNull
             (sample_fetches Sample.creation Sample.success)).
    all: vm_compute; reflexivity.
  - apply (C6_no_recipient default_config _ _ Sample.payer 0 _ _ _ _
             Sample.payer Sample.treasury (JStr Sample.payer) JNull
             (sample_fetches Sample.null_creation Sample.success)).
    all: vm_compute; reflexivity.
Defined.

(** ** The claims about addresses, faults and the polling loop *)

(** C8: two expected-sender texts with the same lower-case form, one of
    which is an address, make [verify_mon_payment] return the same verdict
    and the same diagnostic text in the same world. *)
Theorem C8_sender_case cfg net a b tx_hash amount w :
  PyStr.lower a = PyStr.lower b ->
  raises (EthUtils.to_checksum_address (JStr a)) = false ->
  EvmVerify.verify_mon_payment cfg net tx_hash a amount w
  = EvmVerify.verify_mon_payment cfg net tx_hash b amount w.
Proof.
  intros Hcase Hvalid.
  destruct (EthUtils.to_checksum_address (JStr a)) as [c|k t] eqn:Ha;
    [|discriminate].
  unfold EvmVerify.verify_mon_payment.
  now rewrite Ha, (to_checksum_address_case a b c Hcase Ha).
Qed.

(** An address in upper and in lower case. *)
Lemma C8_witness :
  EvmVerify.verify_mon_payment default_config (Sample.node Sample.transfer Sample.success)
    Sample.some_hash "0XABCDEF0123456789ABCDEF0123456789ABCDEF01" Sample.one_mon
    initial_world
  = EvmVerify.verify_mon_payment default_config (Sample.node Sample.transfer Sample.success)
      Sample.some_hash "0xabcdef0123456789abcdef0123456789abcdef01" Sample.one_mon
      initial_world.
Proof.
  apply C8_sender_case; vm_compute; reflexivity.
Defined.

(** C10: without a transaction hash, or with the empty one,
    [PaymentVerifier.verify_payment] returns (false, None) in the world it
    was called in: no request, no sleep, nothing printed. *)
Theorem C10_missing_hash cfg net fuel from_address expected_amount timeout w :
  PaymentVerifier.verify_payment cfg net fuel from_address expected_amount None timeout w
  = Some (Ret (false, None), w)
  /\ PaymentVerifier.verify_payment cfg net fuel from_address expected_amount (Some "")
       timeout w
     = Some (Ret (false, None), w).
Proof. split; reflexivity. Qed.

(** C2 fails on the code: when the node returns a record without the
    [from] member (and a successful receipt), [verify_mon_payment] raises
    ValueError out of the unguarded [to_checksum_address] call, and
    [PaymentVerifier.verify_payment] lets it through to its caller. *)
Theorem C2_senderless_record_raises :
  EvmVerify.verify_mon_payment default_config
    (Sample.node Sample.senderless Sample.success)
    Sample.some_hash Sample.payer Sample.one_mon initial_world
  = (Raise ValueError "Unknown format '', attempted to normalize to '0x'",
     Sample.after_two_fetches)
  /\ PaymentVerifier.verify_payment default_config
       (Sample.node Sample.senderless Sample.success)
       (PaymentVerifier.enough_fuel 30) Sample.payer Sample.one_mon
       (Some Sample.some_hash) 30 initial_world
     = Some (Raise ValueError "Unknown format '', attempted to normalize to '0x'",
             Sample.after_two_fetches).
Proof. split; vm_compute; reflexivity. Qed.

(** C3 fails on the code: against a node that knows no transaction, the
    hash 0xabc is rejected at once, after one request and no sleep, while
    the hash 0xpending, whose NotFound text mentions "pending", is retried
    with a two-second sleep each time until the 30-second timeout. *)
Theorem C3_not_found_is_retried :
  (exists w',
     PaymentVerifier.verify_payment default_config Sample.empty_node
       (PaymentVerifier.enough_fuel 30) Sample.payer Sample.one_mon
       (Some "0xabc") 30 initial_world
     = Some (Ret (false, None), w')
     /\ Polling.requests (trace w') = 1%nat
     /\ Polling.sleeps (trace w') = 0%nat
     /\ now w' = 100)
  /\ (exists w',
        PaymentVerifier.verify_payment default_config Sample.empty_node
          (PaymentVerifier.enough_fuel 30) Sample.payer Sample.one_mon
          (Some "0xpending") 30 initial_world
        = Some (Ret (false, None), w')
        /\ Polling.requests (trace w') = 14%nat
        /\ Polling.sleeps (trace w') = 14%nat
        /\ now w' = 30800).
Proof.
  split; eexists; (split; [vm_compute; reflexivity|]); vm_compute; auto.
Qed.

(** C7 (amended): when [verify_payment] reports a verified payment, one
    attempt fetched a transaction and a receipt for which every clause of
    the rule holds, and the record in the verdict is what a further
    [get_transaction] request, made after that attempt, returned. *)
Theorem C7_verdict_record cfg net tx_hash sender_address amount_wei w v w' :
  EvmVerify.verify_payment cfg net tx_hash sender_address amount_wei w = (Ret v, w') ->
  EvmVerify.verified v = true ->
  exists tx receipt w2,
    Rule.fetches cfg net tx_hash w tx receipt w2
    /\ Rule.clauses_1_to_6 cfg sender_address tx receipt
    /\ Rule.clause_7 amount_wei tx
    /\ Rule.clause_8 tx
    /\ EvmVerify.get_transaction cfg net tx_hash w2 = (Ret (EvmVerify.tx_info v), w')
    /\ EvmVerify.tx_hash_of v = tx_hash
    /\ EvmVerify.error v = None.
Proof.
  unfold EvmVerify.verify_payment. unfold bind at 1.
  destruct (EvmVerify.verify_mon_payment cfg net tx_hash sender_address amount_wei w)
    as [[[[|] e]|k t] w2] eqn:Hrun.
  - destruct (accepted_sound _ _ _ _ _ _ _ _ Hrun)
      as (_ & tx & receipt & Hfetch & H16 & H7 & H8).
    unfold bind, ret.
    destruct (get_transaction_returns cfg net tx_hash w2) as (tx' & w3 & Hagain & _).
    rewrite Hagain. intros [= <- <-] _.
    exists tx, receipt, w2. cbn. auto 10.
  - unfold ret. intros [= <- _]. discriminate.
  - discriminate.
Qed.

(** C7 as stated fails: the node may answer the later request with
    another record, here one signed for chain 1, and that record is the
    one the verdict carries. *)
Lemma C7_counterexample :
  ~ (forall cfg net tx_hash sender_address amount_wei w v w',
       EvmVerify.verify_payment cfg net tx_hash sender_address amount_wei w = (Ret v, w') ->
       EvmVerify.verified v = true ->
       exists tx receipt w2,
         Rule.fetches cfg net tx_hash w tx receipt w2
         /\ Rule.clauses_1_to_6 cfg sender_address tx receipt
         /\ Rule.clause_7 amount_wei tx
         /\ Rule.clause_8 tx
         /\ EvmVerify.tx_info v = tx).
Proof.
  intros Hclaim.
  destruct
    (Hclaim default_config
       Sample.fickle_node
       Sample.some_hash Sample.payer Sample.one_mon initial_world _ _
       ltac:(vm_compute; reflexivity) eq_refl)
    as (tx & receipt & w2 & (w1 & Htx & _) & _ & _ & _ & Hsame).
  vm_compute in Htx, Hsame. rewrite <- Hsame in Htx. discriminate.
Qed.

(** The run against the endpoint that answers the third request with
    another record. *)
Lemma C7_witness :
  exists tx receipt w2,
    Rule.fetches default_config Sample.fickle_node Sample.some_hash initial_world
      tx receipt w2
    /\ Rule.clauses_1_to_6 default_config Sample.payer tx receipt
    /\ Rule.clause_7 Sample.one_mon tx
    /\ Rule.clause_8 tx
    /\ EvmVerify.get_transaction default_config Sample.fickle_node Sample.some_hash w2
       = (Ret (EvmVerify.tx_info Sample.fickle_verdict), Sample.after_three_fetches)
    /\ EvmVerify.tx_hash_of Sample.fickle_verdict = Sample.some_hash
    /\ EvmVerify.error Sample.fickle_verdict = None.
Proof.
  apply (C7_verdict_record default_config Sample.fickle_node Sample.some_hash
           Sample.payer Sample.one_mon initial_world).
  - vm_compute. reflexivity.
  - reflexivity.
Defined.

Section PollingClaims.

Variable cfg : config.
Variable net : network.

(** C9: with fuel for the timeout, [PaymentVerifier.verify_payment]
    returns or raises; a returned pair is (true, the hash passed in) or
    (false, None), never a hash beside false.  It is (true, hash) only if,
    after retries, an attempt made before the timeout elapsed was accepted
    by the rule and left the world the call ends in; and every attempt
    that, after retries, is made before the timeout elapsed decides the
    call: accepted, the call returns (true, hash) in the world the attempt
    left; rejected with a text that does not ask to wait, it returns
    (false, None) after printing the failure; raising, the call raises
    the same.  When, after retries, the timeout has elapsed, the call
    prints the timeout and returns (false, None), unless the timeout
    cannot be written in 4300 decimal digits, in which case formatting
    the line raises. *)
Theorem C9_polling_result fuel from_address expected_amount tx_hash timeout w :
  tx_hash <> "" ->
  (PaymentVerifier.enough_fuel timeout <= fuel)%nat ->
  exists r w',
    PaymentVerifier.verify_payment cfg net fuel from_address expected_amount
      (Some tx_hash) timeout w = Some (r, w')
    /\ (forall b x, r = Ret (b, x) ->
          (b = true /\ x = Some tx_hash) \/ (b = false /\ x = None))
    /\ (r = Ret (true, Some tx_hash) ->
        exists wk,
          Polling.retried cfg net from_address expected_amount tx_hash timeout (now w) w wk
          /\ Polling.in_time timeout (now w) wk
          /\ EvmVerify.verify_mon_payment cfg net tx_hash from_address expected_amount wk
             = (Ret (true, None), w'))
    /\ (forall wk e w1,
          Polling.retried cfg net from_address expected_amount tx_hash timeout (now w) w wk ->
          Polling.in_time timeout (now w) wk ->
          EvmVerify.verify_mon_payment cfg net tx_hash from_address expected_amount wk
          = (Ret (true, e), w1) ->
          r = Ret (true, Some tx_hash) /\ w' = w1)
    /\ (forall wk e w1,
          Polling.retried cfg net from_address expected_amount tx_hash timeout (now w) w wk ->
          Polling.in_time timeout (now w) wk ->
          EvmVerify.verify_mon_payment cfg net tx_hash from_address expected_amount wk
          = (Ret (false, e), w1) ->
          PaymentVerifier.asks_to_wait e = false ->
          r = Ret (false, None)
          /\ w' = snd (print ("Payment verification failed: "
                                ++ match e with Some text => text | None => "" end) w1))
    /\ (forall wk k t w1,
          Polling.retried cfg net from_address expected_amount tx_hash timeout (now w) w wk ->
          Polling.in_time timeout (now w) wk ->
          EvmVerify.verify_mon_payment cfg net tx_hash from_address expected_amount wk
          = (Raise k t, w1) ->
          r = Raise k t /\ w' = w1)
    /\ (forall wk,
          Polling.retried cfg net from_address expected_amount tx_hash timeout (now w) w wk ->
          ~ Polling.in_time timeout (now w) wk ->
          (r, w')
          = match int_str timeout with
            | Ret seconds =>
                (Ret (false, None),
                 snd (print ("Payment verification timed out after " ++ seconds ++ "s") wk))
            | Raise k t => (Raise k t, wk)
            end).
Proof.
  intros Hhash Hfuel.
  unfold PaymentVerifier.verify_payment.
  apply String.eqb_neq in Hhash. rewrite Hhash.
  destruct (enough_fuel_covers timeout fuel w Hfuel) as (f & -> & Hcov).
  destruct (polling_total cfg net from_address expected_amount tx_hash timeout (now w) f w Hcov)
    as (r & w' & Hrun).
  exists r, w'. split; [exact Hrun|].
  assert (Hback : forall wk,
             Polling.retried cfg net from_address expected_amount tx_hash timeout (now w) w wk ->
             exists f',
               PaymentVerifier.polling cfg net (S f') from_address expected_amount tx_hash
                 timeout (now w) wk = Some (r, w')).
  { intros wk Hpath.
    destruct (polling_retried cfg net _ _ _ _ _ w wk Hpath f Hcov) as (f' & _ & Hsame).
    exists f'. now rewrite <- Hsame. }
  split; [|split; [|split; [|split; [|split]]]].
  - intros b x ->. eapply polling_shape; eauto.
  - intros ->. eapply polling_accepts_sound; eauto.
  - intros wk e w1 Hpath Hin Haccept.
    destruct (Hback wk Hpath) as (f' & Hk).
    rewrite (polling_accepted cfg net _ _ _ _ _ f' wk e w1 Hin Haccept) in Hk.
    injection Hk as <- <-. auto.
  - intros wk e w1 Hpath Hin Hreject Hwait.
    destruct (Hback wk Hpath) as (f' & Hk).
    rewrite (polling_rejected cfg net _ _ _ _ _ f' wk e w1 Hin Hreject Hwait) in Hk.
    injection Hk as <- <-. auto.
  - intros wk k t w1 Hpath Hin Hraise.
    destruct (Hback wk Hpath) as (f' & Hk).
    rewrite (polling_raised cfg net _ _ _ _ _ f' wk k t w1 Hin Hraise) in Hk.
    injection Hk as <- <-. auto.
  - intros wk Hpath Hout.
    destruct (Hback wk Hpath) as (f' & Hk).
    rewrite (polling_timed_out cfg net from_address expected_amount tx_hash _ _ f' wk Hout)
      in Hk.
    destruct (int_str timeout); now injection Hk as <- <-.
Qed.

End PollingClaims.

(** The run against the endpoint that has the receipt at the second
    attempt. *)
Lemma C9_witness :
  exists r w',
    PaymentVerifier.verify_payment default_config Sample.slow_node
      (PaymentVerifier.enough_fuel 30) Sample.payer Sample.one_mon
      (Some Sample.some_hash) 30 initial_world
    = Some (r, w')
    /\ (forall b x, r = Ret (b, x) ->
          (b = true /\ x = Some Sample.some_hash) \/ (b = false /\ x = None))
    /\ (r = Ret (true, Some Sample.some_hash) ->
        exists wk,
          Polling.retried default_config Sample.slow_node Sample.payer Sample.one_mon Sample.some_hash 30 (now initial_world) initial_world wk
          /\ Polling.in_time 30 (now initial_world) wk
          /\ EvmVerify.verify_mon_payment default_config Sample.slow_node Sample.some_hash Sample.payer Sample.one_mon wk
             = (Ret (true, None), w'))
    /\ (forall wk e w1,
          Polling.retried default_config Sample.slow_node Sample.payer Sample.one_mon Sample.some_hash 30 (now initial_world) initial_world wk ->
          Polling.in_time 30 (now initial_world) wk ->
          EvmVerify.verify_mon_payment default_config Sample.slow_node Sample.some_hash Sample.payer Sample.one_mon wk
          = (Ret (true, e), w1) ->
          r = Ret (true, Some Sample.some_hash) /\ w' = w1)
    /\ (forall wk e w1,
          Polling.retried default_config Sample.slow_node Sample.payer Sample.one_mon Sample.some_hash 30 (now initial_world) initial_world wk ->
          Polling.in_time 30 (now initial_world) wk ->
          EvmVerify.verify_mon_payment default_config Sample.slow_node Sample.some_hash Sample.payer Sample.one_mon wk
          = (Ret (false, e), w1) ->
          PaymentVerifier.asks_to_wait e = false ->
          r = Ret (false, None)
          /\ w' = snd (print ("Payment verification failed: "
                                ++ match e with Some text => text | None => "" end) w1))
    /\ (forall wk k t w1,
          Polling.retried default_config Sample.slow_node Sample.payer Sample.one_mon Sample.some_hash 30 (now initial_world) initial_world wk ->
          Polling.in_time 30 (now initial_world) wk ->
          EvmVerify.verify_mon_payment default_config Sample.slow_node Sample.some_hash Sample.payer Sample.one_mon wk
          = (Raise k t, w1) ->
          r = Raise k t /\ w' = w1)
    /\ (forall wk,
          Polling.retried default_config Sample.slow_node Sample.payer Sample.one_mon Sample.some_hash 30 (now initial_world) initial_world wk ->
          ~ Polling.in_time 30 (now initial_world) wk ->
          (r, w')
          = match int_str 30 with
            | Ret seconds =>
                (Ret (false, None),
                 snd (print ("Payment verification timed out after " ++ seconds ++ "s") wk))
            | Raise k t => (Raise k t, wk)
            end).
Proof.
  apply C9_polling_result.
  - discriminate.
  - vm_compute. lia.
Defined.

(** ** Further properties of the rule and of the loop *)

(** The rule accepts exactly when the transaction and the receipt one
    attempt fetched satisfy all eight clauses. *)
Theorem acceptance_rule_characterised cfg net tx_hash expected_sender amount w w' :
  EvmVerify.verify_mon_payment cfg net tx_hash expected_sender amount w
  = (Ret (true, None), w')
  <-> exists tx receipt,
        Rule.fetches cfg net tx_hash w tx receipt w'
        /\ Rule.clauses_1_to_6 cfg expected_sender tx receipt
        /\ Rule.clause_7 amount tx
        /\ Rule.clause_8 tx.
Proof.
  split.
  - intros H. now apply accepted_sound in H.
  - intros (tx & receipt & Hfetch & H16 & (v & Hv & Hcovers) & (c & Hc & Hchain)).
    rewrite (run_past_clause_6 cfg net _ _ amount _ _ _ _ Hfetch H16), Hv, Hc.
    apply Z.ltb_ge in Hcovers. rewrite Hcovers.
    destruct Hchain as [-> | ->]; [reflexivity|].
    destruct (truthy c); [|reflexivity]. now rewrite Z.eqb_refl.
Qed.

(** The Pending text asks to wait, whatever the hash. *)
Theorem pending_text_asks_to_wait tx_hash :
  PaymentVerifier.asks_to_wait (Some (EvmVerify.msg_pending tx_hash)) = true.
Proof.
  unfold PaymentVerifier.asks_to_wait, EvmVerify.msg_pending.
  rewrite !lower_app.
  rewrite (contains_app_r "pending" (PyStr.lower "Transaction ")).
  - reflexivity.
  - apply contains_app_r.
    apply (contains_app_r "pending" " " ("pending" ++ " or not yet mined")).
    apply contains_here.
Qed.

(** The NotFound text of a hash in hexadecimal form does not ask to
    wait. *)
Lemma not_found_text_is_terminal tx_hash :
  PyStr.forall_chars Polling.hash_char tx_hash = true ->
  PaymentVerifier.asks_to_wait (Some (EvmVerify.msg_not_found tx_hash)) = false.
Proof.
  intros Hhex.
  unfold PaymentVerifier.asks_to_wait, EvmVerify.msg_not_found.
  rewrite !lower_app.
  rewrite (contains_chars (fun c => (c =? PyStr.lower_char "p")%char) "pending"),
    (contains_chars (fun c => (c =? PyStr.lower_char "y")%char) "not yet mined").
  - apply andb_false_r.
  - reflexivity.
  - rewrite !exists_char_app, (lower_hash_lacks "y" tx_hash eq_refl Hhex). reflexivity.
  - reflexivity.
  - rewrite !exists_char_app, (lower_hash_lacks "p" tx_hash eq_refl Hhex). reflexivity.
Qed.

(** A hash in hexadecimal form that the node does not know is rejected
    at the first attempt: after the one transaction fetch the loop prints
    the diagnostic and returns (false, None), with no receipt fetch and
    no sleep. *)
Theorem unknown_hash_fails_fast cfg net fuel from_address expected_amount tx_hash
    timeout w tx w1 :
  tx_hash <> "" ->
  PyStr.forall_chars Polling.hash_char tx_hash = true ->
  0 < timeout ->
  raises (EthUtils.to_checksum_address (JStr from_address)) = false ->
  raises (EthUtils.to_checksum_address (JStr (PAYMENT_RECIPIENT_ADDRESS cfg))) = false ->
  EvmVerify.get_transaction cfg net tx_hash w = (Ret tx, w1) ->
  truthy tx = false ->
  PaymentVerifier.verify_payment cfg net (S fuel) from_address expected_amount
    (Some tx_hash) timeout w
  = Some (Ret (false, None),
          snd (print ("Payment verification failed: " ++ EvmVerify.msg_not_found tx_hash) w1)).
Proof.
  intros Hhash Hhex Htimeout Hfrom Hto Htx Hnone.
  unfold PaymentVerifier.verify_payment.
  apply String.eqb_neq in Hhash. rewrite Hhash.
  cbn [PaymentVerifier.polling].
  destruct (Z.ltb_spec (now w - now w) (1000 * timeout)) as [_|]; [|lia].
  unfold EvmVerify.verify_mon_payment.
  destruct (EthUtils.to_checksum_address (JStr from_address)); [|discriminate].
  destruct (EthUtils.to_checksum_address (JStr (PAYMENT_RECIPIENT_ADDRESS cfg)));
    [|discriminate].
  unfold bind at 1. rewrite Htx, Hnone. cbn [negb]. unfold ret.
  rewrite (not_found_text_is_terminal tx_hash Hhex).
  reflexivity.
Qed.

Lemma unknown_hash_fails_fast_witness :
  PaymentVerifier.verify_payment default_config Sample.empty_node 1 Sample.payer
    Sample.one_mon (Some Sample.some_hash) 30 initial_world
  = Some (Ret (false, None),
          {| now := 100; suspensions := 1;
             trace := [Request (BASE_RPC default_config) "eth_getTransactionByHash"
                         [JStr Sample.some_hash];
                       Printed "Payment verification failed: Transaction 0xabc not found on chain"] |}).
Proof.
  apply (unknown_hash_fails_fast default_config Sample.empty_node 0 Sample.payer
           Sample.one_mon Sample.some_hash 30 initial_world JNull
           {| now := 100; suspensions := 1;
              trace := [Request (BASE_RPC default_config) "eth_getTransactionByHash"
                          [JStr Sample.some_hash]] |}).
  - discriminate.
  - reflexivity.
  - lia.
  - vm_compute. reflexivity.
  - vm_compute. reflexivity.
  - reflexivity.
  - reflexivity.
Defined.

(** ** The connectivity check and the balance query *)

Lemma int16_inv v n :
  PyInt.int16 v = Ret n -> exists text, v = JStr text /\ PyInt.parse16 text = Some n.
Proof.
  unfold PyInt.int16. destruct v; try discriminate.
  destruct (PyInt.parse16 s) as [m|] eqn:E; [|discriminate].
  intros [= <-]. eauto.
Qed.

Lemma py_get_str_inv data key text :
  py_get data key JNull = Ret (JStr text) ->
  exists members, data = JObj members /\ lookup key members = Some (JStr text).
Proof.
  unfold py_get. destruct data; try discriminate.
  destruct (lookup key members) as [v|] eqn:E; [|discriminate].
  intros [= ->]. eauto.
Qed.

Lemma requests_app a b :
  Polling.requests (a ++ b) = (Polling.requests a + Polling.requests b)%nat.
Proof. unfold Polling.requests. now rewrite filter_app, length_app. Qed.

Lemma sleeps_app a b :
  Polling.sleeps (a ++ b) = (Polling.sleeps a + Polling.sleeps b)%nat.
Proof. unfold Polling.sleeps. now rewrite filter_app, length_app. Qed.

Lemma carries_inv status data result n :
  (status =? 200) = true ->
  py_get data "result" JNull = Ret result ->
  PyInt.int16 result = Ret n ->
  Effects.carries (Response status (Json data)) n.
Proof.
  intros Hs Hget Hint.
  destruct (int16_inv _ _ Hint) as (text & -> & Hparse).
  destruct (py_get_str_inv _ _ _ Hget) as (members & -> & Hl).
  apply Z.eqb_eq in Hs. subst. exists members, text. auto.
Qed.

Lemma carries_run status data n :
  Effects.carries (Response status (Json data)) n ->
  (status =? 200) = true
  /\ exists result,
       py_get data "result" JNull = Ret result
       /\ truthy result = true
       /\ PyInt.int16 result = Ret n.
Proof.
  intros (members & text & [= -> ->] & Hl & Hparse). split; [reflexivity|].
  exists (JStr text). unfold py_get, PyInt.int16. rewrite Hl, Hparse.
  repeat split. destruct text; [discriminate Hparse | reflexivity].
Qed.

Ltac no_carry H :=
  first
    [ let E := fresh in destruct H as (? & ? & E & _); discriminate E
    | let Hs := fresh in
      let r := fresh in
      let Hget := fresh in
      let Ht := fresh in
      let Hint := fresh in
      apply carries_run in H; destruct H as (Hs & r & Hget & Ht & Hint);
      congruence ].

(** [is_connected] answers on every reply, after one request, and says
    yes exactly when the reply is a 200 response carrying, as a
    hexadecimal text, the chain id of the instance. *)
Theorem is_connected_characterised net self w :
  exists b w',
    PaymentVerifier.is_connected net self w = (Ret b, w')
    /\ suspensions w' = S (suspensions w)
    /\ Polling.requests (trace w') = S (Polling.requests (trace w))
    /\ Polling.sleeps (trace w') = Polling.sleeps (trace w)
    /\ (b = true <->
        Effects.carries
          (respond net (suspensions w) (PaymentVerifier.rpc_url self) "eth_chainId" [])
          (PaymentVerifier.chain_id self)).
Proof.
  unfold PaymentVerifier.is_connected, bind, post, print, ret.
  destruct (respond net (suspensions w) (PaymentVerifier.rpc_url self) "eth_chainId" [])
    as [e|status [data|e]];
    [ | destruct (status =? 200) eqn:Hs;
        [ destruct (py_get data "result" JNull) as [result|k t] eqn:Hget;
          [ destruct (truthy result) eqn:Ht;
            [ destruct (PyInt.int16 result) as [n|k t] eqn:Hint | ] | ] | ]
      | destruct (status =? 200) eqn:Hs ].
  all: do 2 eexists; (split; [reflexivity|]); cbn [suspensions trace];
    (split; [reflexivity|]);
    rewrite ?requests_app, ?sleeps_app; cbn;
    (split; [lia|]); (split; [lia|]).
  all: try (split; [discriminate | intros H; exfalso; no_carry H]).
  split.
  - intros Hn. apply Z.eqb_eq in Hn. subst n. eapply carries_inv; eauto.
  - intros H. apply carries_run in H. destruct H as (_ & r & Hget' & _ & Hint').
    rewrite Hget in Hget'. injection Hget' as <-.
    rewrite Hint in Hint'. injection Hint' as ->. apply Z.eqb_refl.
Qed.

(** [get_balance] answers on every reply, after one request for the
    address as given and the latest block, and returns a balance exactly
    when the reply is a 200 response carrying it as a hexadecimal text;
    otherwise it returns None. *)
Theorem get_balance_characterised net self address w :
  exists r w',
    PaymentVerifier.get_balance net self address w = (Ret r, w')
    /\ suspensions w' = S (suspensions w)
    /\ Polling.requests (trace w') = S (Polling.requests (trace w))
    /\ Polling.sleeps (trace w') = Polling.sleeps (trace w)
    /\ (forall n,
          r = Some n <->
          Effects.carries
            (respond net (suspensions w) (PaymentVerifier.rpc_url self) "eth_getBalance"
               [JStr address; JStr "latest"])
            n).
Proof.
  unfold PaymentVerifier.get_balance, bind, post, print, ret.
  destruct (respond net (suspensions w) (PaymentVerifier.rpc_url self) "eth_getBalance"
              [JStr address; JStr "latest"])
    as [e|status [data|e]];
    [ | destruct (status =? 200) eqn:Hs;
        [ destruct (py_get data "result" JNull) as [result|k t] eqn:Hget;
          [ destruct (truthy result) eqn:Ht;
            [ destruct (PyInt.int16 result) as [m|k t] eqn:Hint | ] | ] | ]
      | destruct (status =? 200) eqn:Hs ].
  all: do 2 eexists; (split; [reflexivity|]); cbn [suspensions trace];
    (split; [reflexivity|]);
    rewrite ?requests_app, ?sleeps_app; cbn;
    (split; [lia|]); (split; [lia|]); intros n.
  all: try (split; [discriminate | intros H; exfalso; no_carry H]).
  split.
  - intros [= <-]. eapply carries_inv; eauto.
  - intros H. apply carries_run in H. destruct H as (_ & r & Hget' & _ & Hint').
    rewrite Hget in Hget'. injection Hget' as <-.
    rewrite Hint in Hint'. now injection Hint' as ->.
Qed.

(** A node that reports a zero balance as 0x0 gives the balance 0, not
    None: the text is not empty, so the test on [result] lets it through. *)
Example zero_balance :
  fst (PaymentVerifier.get_balance
         (Sample.scripted [Sample.rpc_result (JStr "0x0")] 100)
         (PaymentVerifier.init default_config) Sample.payer initial_world)
  = Ret (Some 0).
Proof. vm_compute. reflexivity. Qed.

Example connected_to_testnet :
  fst (PaymentVerifier.is_connected Sample.testnet_node
         (PaymentVerifier.init default_config) initial_world)
  = Ret true.
Proof. vm_compute. reflexivity. Qed.

(** ** The two fetch functions *)

Lemma result_of_characterised label tx_hash reply w :
  exists v w',
    EvmVerify.result_of label tx_hash reply w = (Ret v, w')
    /\ now w' = now w /\ suspensions w' = suspensions w
    /\ Polling.requests (trace w') = Polling.requests (trace w)
    /\ Polling.sleeps (trace w') = Polling.sleeps (trace w)
    /\ (forall members,
          reply = Response 200 (Json (JObj members)) ->
          v = match lookup "result" members with Some x => x | None => JNull end
          /\ w' = w)
    /\ (v <> JNull ->
        exists members,
          reply = Response 200 (Json (JObj members))
          /\ lookup "result" members = Some v).
Proof.
  unfold EvmVerify.result_of, bind, print, ret.
  destruct reply as [e|status [data|e]];
    [ | destruct (Z.eqb_spec status 200) as [->|Hs];
        [ destruct data as [| | | | |items|members] | ]
      | destruct (Z.eqb_spec status 200) as [->|Hs] ].
  all: cbn [py_get]; unfold py_get.
  all: do 2 eexists; (split; [reflexivity|]); cbn [now suspensions trace];
    rewrite ?requests_app, ?sleeps_app; cbn [Polling.requests Polling.sleeps filter List.length];
    repeat (split; [try reflexivity; lia|]).
  all: split; [intros m [=]; subst; auto; try congruence | intros Hv; try congruence].
  exists members. split; [reflexivity|].
  destruct (lookup "result" members); congruence.
Qed.

(** [get_transaction] and [get_transaction_receipt] return on every
    reply, after exactly one request for the hash; a 200 response with an
    object body yields its [result] member (None when absent), and a
    value other than None comes from such a response only: a failed
    connection, another status and an undecodable body all read as None. *)
Theorem fetch_characterised cfg net tx_hash w :
  (exists tx w1,
     EvmVerify.get_transaction cfg net tx_hash w = (Ret tx, w1)
     /\ suspensions w1 = S (suspensions w)
     /\ Polling.requests (trace w1) = S (Polling.requests (trace w))
     /\ Polling.sleeps (trace w1) = Polling.sleeps (trace w)
     /\ (forall members,
           respond net (suspensions w) (BASE_RPC cfg) "eth_getTransactionByHash"
             [JStr tx_hash] = Response 200 (Json (JObj members)) ->
           tx = match lookup "result" members with Some x => x | None => JNull end)
     /\ (tx <> JNull ->
         exists members,
           respond net (suspensions w) (BASE_RPC cfg) "eth_getTransactionByHash"
             [JStr tx_hash] = Response 200 (Json (JObj members))
           /\ lookup "result" members = Some tx))
  /\ (exists receipt w1,
        EvmVerify.get_transaction_receipt cfg net tx_hash w = (Ret receipt, w1)
        /\ suspensions w1 = S (suspensions w)
        /\ Polling.requests (trace w1) = S (Polling.requests (trace w))
        /\ Polling.sleeps (trace w1) = Polling.sleeps (trace w)
        /\ (forall members,
              respond net (suspensions w) (BASE_RPC cfg) "eth_getTransactionReceipt"
                [JStr tx_hash] = Response 200 (Json (JObj members)) ->
              receipt = match lookup "result" members with Some x => x | None => JNull end)
        /\ (receipt <> JNull ->
            exists members,
              respond net (suspensions w) (BASE_RPC cfg) "eth_getTransactionReceipt"
                [JStr tx_hash] = Response 200 (Json (JObj members))
              /\ lookup "result" members = Some receipt)).
Proof.
  unfold EvmVerify.get_transaction, EvmVerify.get_transaction_receipt, bind, post.
  split.
  all: match goal with
       | |- context [EvmVerify.result_of ?l ?h ?r ?x] =>
           destruct (result_of_characterised l h r x)
             as (v & w' & -> & _ & Hcount & Hreq & Hsl & Hgood & Honly)
       end.
  all: exists v, w'; cbn [now suspensions trace] in *;
    rewrite requests_app, sleeps_app in *; cbn in Hreq, Hsl.
  all: repeat (split; [first [reflexivity | assumption | lia]|]).
  all: split; [intros m Hm; now apply Hgood in Hm | exact Honly].
Qed.

(** ** More on one attempt of the rule *)

Lemma result_of_trace label tx_hash reply w :
  exists lines,
    trace (snd (EvmVerify.result_of label tx_hash reply w))
    = (trace w ++ map Printed lines)%list.
Proof.
  unfold EvmVerify.result_of, bind, print, ret.
  destruct reply as [e|status [data|e]];
    [ | destruct (status =? 200); [destruct (py_get data "result" JNull)|] 
      | destruct (status =? 200) ].
  all: cbn [snd trace];
    first [ exists []; cbn [map]; now rewrite app_nil_r
          | eexists [_]; reflexivity ].
Qed.

Section AttemptFacts.

Variable cfg : config.
Variable net : network.

Abbreviation attempt := (EvmVerify.verify_mon_payment cfg net).

Lemma get_transaction_trace tx_hash w :
  exists lines,
    trace (snd (EvmVerify.get_transaction cfg net tx_hash w))
    = (trace w
       ++ Request (BASE_RPC cfg) "eth_getTransactionByHash" [JStr tx_hash]
          :: map Printed lines)%list.
Proof.
  unfold EvmVerify.get_transaction, bind, post.
  match goal with
  | |- context [EvmVerify.result_of ?l ?h ?r ?x] =>
      destruct (result_of_trace l h r x) as (lines & Htrace);
      destruct (result_of_returns l h r x) as (v & w' & E & _)
  end.
  rewrite E in *. cbn [snd trace] in *. exists lines.
  now rewrite Htrace, <- app_assoc.
Qed.

Lemma get_transaction_receipt_trace tx_hash w :
  exists lines,
    trace (snd (EvmVerify.get_transaction_receipt cfg net tx_hash w))
    = (trace w
       ++ Request (BASE_RPC cfg) "eth_getTransactionReceipt" [JStr tx_hash]
          :: map Printed lines)%list.
Proof.
  unfold EvmVerify.get_transaction_receipt, bind, post.
  match goal with
  | |- context [EvmVerify.result_of ?l ?h ?r ?x] =>
      destruct (result_of_trace l h r x) as (lines & Htrace);
      destruct (result_of_returns l h r x) as (v & w' & E & _)
  end.
  rewrite E in *. cbn [snd trace] in *. exists lines.
  now rewrite Htrace, <- app_assoc.
Qed.

Lemma printed_of_attempt tx_hash lines :
  Forall (Effects.of_attempt cfg tx_hash) (map Printed lines).
Proof.
  induction lines as [|l lines IH]; constructor; [|exact IH].
  right. now exists l.
Qed.

Lemma printed_counts lines :
  Polling.requests (map Printed lines) = 0%nat
  /\ Polling.sleeps (map Printed lines) = 0%nat.
Proof. induction lines as [|l lines IH]; [split; reflexivity | exact IH]. Qed.

(** What one attempt does to the world. *)
Lemma attempt_effects tx_hash expected_sender amount w :
  exists events,
    trace (snd (attempt tx_hash expected_sender amount w)) = (trace w ++ events)%list
    /\ Forall (Effects.of_attempt cfg tx_hash) events
    /\ (Polling.requests events <= 2)%nat
    /\ Polling.sleeps events = 0%nat
    /\ suspensions (snd (attempt tx_hash expected_sender amount w))
       = (suspensions w + Polling.requests events)%nat.
Proof.
  destruct (attempt tx_hash expected_sender amount w) as [r w'] eqn:Hrun.
  cbn [snd].
  destruct (attempt_worlds cfg net _ _ _ _ _ _ Hrun)
    as [-> | [(tx & Htx) | (tx & receipt & w1 & Htx & Hrc)]].
  - exists []. rewrite app_nil_r. repeat split; auto; cbn; lia.
  - destruct (get_transaction_trace tx_hash w) as (lines & Htrace).
    destruct (get_transaction_returns cfg net tx_hash w) as (? & ? & E & _ & Hcount).
    rewrite Htx in Htrace, E. injection E as <- <-. cbn [snd] in Htrace.
    destruct (printed_counts lines) as (Hreq & Hsl).
    eexists. split; [exact Htrace|]. repeat split.
    + constructor; [left; left; reflexivity | apply printed_of_attempt].
    + change (Polling.requests (?e :: ?l)) with (S (Polling.requests l)). lia.
    + change (Polling.sleeps (?e :: ?l)) with (Polling.sleeps l). exact Hsl.
    + change (Polling.requests (?e :: ?l)) with (S (Polling.requests l)). lia.
  - destruct (get_transaction_trace tx_hash w) as (lines & Htrace).
    destruct (get_transaction_returns cfg net tx_hash w) as (? & ? & E & _ & Hcount).
    rewrite Htx in Htrace, E. injection E as <- <-. cbn [snd] in Htrace.
    destruct (get_transaction_receipt_trace tx_hash w1) as (lines' & Htrace').
    destruct (get_transaction_receipt_returns cfg net tx_hash w1) as (? & ? & E & _ & Hcount').
    rewrite Hrc in Htrace', E. injection E as <- <-. cbn [snd] in Htrace'.
    destruct (printed_counts lines) as (Hreq & Hsl).
    destruct (printed_counts lines') as (Hreq' & Hsl').
    eexists. split; [rewrite Htrace', Htrace, <- app_assoc; reflexivity|].
    rewrite requests_app, sleeps_app.
    change (Polling.requests (?e :: ?l)) with (S (Polling.requests l)).
    change (Polling.sleeps (Request ?a ?b ?c :: ?l)) with (Polling.sleeps l).
    repeat split; try lia.
    apply Forall_app. split.
    + constructor; [left; left; reflexivity | apply printed_of_attempt].
    + constructor; [left; right; reflexivity | apply printed_of_attempt].
Qed.

End AttemptFacts.

Section AttemptProperties.

Variable cfg : config.
Variable net : network.

(** One attempt sends at most two requests, each one of the two
    read-only queries for the hash at the configured endpoint, prints or
    not, never sleeps, and leaves everything recorded before it in place. *)
Theorem attempt_reads_only tx_hash expected_sender amount w :
  exists events,
    trace (snd (EvmVerify.verify_mon_payment cfg net tx_hash expected_sender amount w)) = (trace w ++ events)%list
    /\ Forall (Effects.of_attempt cfg tx_hash) events
    /\ (Polling.requests events <= 2)%nat
    /\ Polling.sleeps events = 0%nat
    /\ suspensions (snd (EvmVerify.verify_mon_payment cfg net tx_hash expected_sender amount w))
       = (suspensions w + Polling.requests events)%nat.
Proof. apply attempt_effects. Qed.

(** The pair an attempt returns is (true, None) or (false, a non-empty
    text): acceptance never carries a diagnostic and rejection always
    does. *)
Theorem attempt_verdict_shape tx_hash expected_sender amount w :
  match fst (EvmVerify.verify_mon_payment cfg net tx_hash expected_sender amount w) with
  | Ret (true, e) => e = None
  | Ret (false, e) => exists text, e = Some text /\ text <> ""
  | Raise _ _ => True
  end.
Proof.
  destruct (EvmVerify.verify_mon_payment cfg net tx_hash expected_sender amount w) as [[[[|] e]|k t] w'] eqn:Hrun;
    cbn [fst]; [| |exact I].
  - now apply accepted_sound in Hrun.
  - apply rejection_text_set in Hrun.
    destruct e as [text|]; [|discriminate]. exists text. split; [reflexivity|].
    intros ->. discriminate.
Qed.

(** When the expected sender or the configured recipient is not an
    address, the attempt is rejected with the address-format text before
    any request is sent. *)
Theorem malformed_address_sends_nothing tx_hash expected_sender amount w :
  raises (EthUtils.to_checksum_address (JStr expected_sender)) = true
  \/ raises (EthUtils.to_checksum_address (JStr (PAYMENT_RECIPIENT_ADDRESS cfg))) = true ->
  exists e,
    EvmVerify.verify_mon_payment cfg net tx_hash expected_sender amount w
    = (Ret (false, Some (EvmVerify.msg_invalid_address e)), w).
Proof.
  unfold EvmVerify.verify_mon_payment, ret.
  destruct (EthUtils.to_checksum_address (JStr expected_sender)) as [a|k t];
    [|intros _; eauto].
  destruct (EthUtils.to_checksum_address (JStr (PAYMENT_RECIPIENT_ADDRESS cfg)))
    as [r|k t]; [|intros _; eauto].
  intros [H|H]; discriminate H.
Qed.

(** With both addresses normalised, a transaction fetch that yields
    nothing ends the attempt as NotFound without a receipt request, and
    a transaction without a receipt ends it as Pending. *)
Theorem existence_clauses tx_hash expected_sender amount w tx w1 :
  raises (EthUtils.to_checksum_address (JStr expected_sender)) = false ->
  raises (EthUtils.to_checksum_address (JStr (PAYMENT_RECIPIENT_ADDRESS cfg))) = false ->
  EvmVerify.get_transaction cfg net tx_hash w = (Ret tx, w1) ->
  (truthy tx = false ->
   EvmVerify.verify_mon_payment cfg net tx_hash expected_sender amount w
   = (Ret (false, Some (EvmVerify.msg_not_found tx_hash)), w1))
  /\ (truthy tx = true ->
      forall receipt w2,
        EvmVerify.get_transaction_receipt cfg net tx_hash w1 = (Ret receipt, w2) ->
        truthy receipt = false ->
        EvmVerify.verify_mon_payment cfg net tx_hash expected_sender amount w
        = (Ret (false, Some (EvmVerify.msg_pending tx_hash)), w2)).
Proof.
  intros Hs Hr Htx.
  unfold EvmVerify.verify_mon_payment.
  destruct (EthUtils.to_checksum_address (JStr expected_sender)); [|discriminate].
  destruct (EthUtils.to_checksum_address (JStr (PAYMENT_RECIPIENT_ADDRESS cfg)));
    [|discriminate].
  split.
  - intros Hnone. unfold bind at 1. now rewrite Htx, Hnone.
  - intros Hsome receipt w2 Hrc Hnone.
    unfold bind at 1. rewrite Htx, Hsome. cbn [negb].
    unfold bind at 1. now rewrite Hrc, Hnone.
Qed.

(** A mined, successful transaction sent by another address than the
    expected one is rejected with the SenderMismatch text, whatever its
    recipient, value and chain. *)
Theorem sender_mismatch_rejected tx_hash expected_sender amount w tx receipt w2
    sender recipient field tx_from :
  Rule.fetches cfg net tx_hash w tx receipt w2 ->
  EthUtils.to_checksum_address (JStr expected_sender) = Ret sender ->
  EthUtils.to_checksum_address (JStr (PAYMENT_RECIPIENT_ADDRESS cfg)) = Ret recipient ->
  truthy tx = true ->
  truthy receipt = true ->
  py_get receipt "status" JNull = Ret (JStr "0x1") ->
  py_get tx "from" (JStr "") = Ret field ->
  EthUtils.to_checksum_address field = Ret tx_from ->
  tx_from <> sender ->
  EvmVerify.verify_mon_payment cfg net tx_hash expected_sender amount w
  = (Ret (false, Some (EvmVerify.msg_sender_mismatch sender tx_from)), w2).
Proof.
  intros (w1 & Htx & Hrc) Hs Hr Htt Htr Hstatus Hfrom Hnorm Hdiff.
  unfold EvmVerify.verify_mon_payment.
  rewrite Hs, Hr. unfold bind, lift, ret.
  rewrite Htx, Htt. cbn [negb]. rewrite Hrc, Htr. cbn [negb].
  rewrite Hstatus. cbn [is_str negb]. rewrite String.eqb_refl. cbn [negb].
  rewrite Hfrom, Hnorm.
  apply String.eqb_neq in Hdiff. now rewrite Hdiff.
Qed.

(** A mined, successful transaction from the expected sender to another
    address than the configured recipient is rejected with the
    RecipientMismatch text, whatever its value and chain. *)
Theorem recipient_mismatch_rejected tx_hash expected_sender amount w tx receipt w2
    sender recipient field field' tx_to :
  Rule.fetches cfg net tx_hash w tx receipt w2 ->
  EthUtils.to_checksum_address (JStr expected_sender) = Ret sender ->
  EthUtils.to_checksum_address (JStr (PAYMENT_RECIPIENT_ADDRESS cfg)) = Ret recipient ->
  truthy tx = true ->
  truthy receipt = true ->
  py_get receipt "status" JNull = Ret (JStr "0x1") ->
  py_get tx "from" (JStr "") = Ret field ->
  EthUtils.to_checksum_address field = Ret sender ->
  py_get tx "to" JNull = Ret field' ->
  truthy field' = true ->
  EthUtils.to_checksum_address field' = Ret tx_to ->
  tx_to <> recipient ->
  EvmVerify.verify_mon_payment cfg net tx_hash expected_sender amount w
  = (Ret (false, Some (EvmVerify.msg_recipient_mismatch recipient tx_to)), w2).
Proof.
  intros (w1 & Htx & Hrc) Hs Hr Htt Htr Hstatus Hfrom Hnorm Hto Htot Hnorm' Hdiff.
  unfold EvmVerify.verify_mon_payment.
  rewrite Hs, Hr. unfold bind, lift, ret.
  rewrite Htx, Htt. cbn [negb]. rewrite Hrc, Htr. cbn [negb].
  rewrite Hstatus. cbn [is_str negb]. rewrite String.eqb_refl. cbn [negb].
  rewrite Hfrom, Hnorm, String.eqb_refl. cbn [negb].
  rewrite Hto, Htot, Hnorm'.
  apply String.eqb_neq in Hdiff. now rewrite Hdiff.
Qed.

End AttemptProperties.

Section Faults.

Variable cfg : config.
Variable net : network.

(** On well-formed records, and for an expected amount [str] converts,
    an attempt returns a verdict: none of the unguarded conversions
    raises, and neither does the formatting of a diagnostic. *)
Theorem well_formed_records_do_not_raise tx_hash expected_sender amount w
    tx receipt w2 :
  Rule.fetches cfg net tx_hash w tx receipt w2 ->
  Rule.well_formed tx receipt ->
  PyStr.fits amount = true ->
  raises (fst (EvmVerify.verify_mon_payment cfg net tx_hash expected_sender amount w))
  = false.
Proof.
  intros (w1 & Htx & Hrc)
    ((status & Hstatus) & (f & Hfrom & Hf) & (t & Hto & Ht)
     & (tx_value & Hvalue & Hfits) & (c & Hc & Hchain)) Hamount.
  unfold Rule.value_of in Hvalue.
  unfold EvmVerify.verify_mon_payment.
  destruct (EthUtils.to_checksum_address (JStr expected_sender)) as [sender|];
    [|reflexivity].
  destruct (EthUtils.to_checksum_address (JStr (PAYMENT_RECIPIENT_ADDRESS cfg)))
    as [recipient|]; [|reflexivity].
  unfold bind, lift, ret. rewrite Htx.
  destruct (truthy tx); [|reflexivity]. cbn [negb]. rewrite Hrc.
  destruct (truthy receipt); [|reflexivity]. cbn [negb]. rewrite Hstatus.
  destruct (is_str status "0x1"); [|reflexivity]. cbn [negb]. rewrite Hfrom.
  destruct (EthUtils.to_checksum_address f) as [tx_from|]; [|discriminate Hf].
  destruct (negb (tx_from =? sender)%string); [reflexivity|]. rewrite Hto.
  destruct (truthy t); [|reflexivity]. specialize (Ht eq_refl).
  destruct (EthUtils.to_checksum_address t) as [tx_to|]; [|discriminate Ht].
  destruct (negb (tx_to =? recipient)%string); [reflexivity|].
  destruct (py_get tx "value" (JStr "0x0")) as [v|]; [|discriminate Hvalue].
  rewrite Hvalue.
  destruct (tx_value <? amount).
  { now rewrite (msg_amount_too_low_fits _ _ Hamount Hfits). }
  rewrite Hc.
  destruct (truthy c); [|reflexivity].
  destruct (Hchain eq_refl) as (n & -> & Hn).
  destruct (negb (n =? CHAIN_ID)); [|reflexivity].
  now rewrite (msg_wrong_chain_fits _ Hn).
Qed.

(** The dictionary [verify_payment] returns always echoes the hash; it
    says verified with no error, after one more transaction request than
    the attempt made, or not verified with the attempt's non-empty
    diagnostic, no record, and no further request; and the call raises
    exactly what the attempt raises. *)
Theorem verdict_well_formed tx_hash sender_address amount_wei w :
  match EvmVerify.verify_payment cfg net tx_hash sender_address amount_wei w,
        EvmVerify.verify_mon_payment cfg net tx_hash sender_address amount_wei w with
  | (Ret v, w'), (r, w1) =>
      EvmVerify.tx_hash_of v = tx_hash
      /\ ((EvmVerify.verified v = true
           /\ r = Ret (true, None)
           /\ EvmVerify.error v = None
           /\ EvmVerify.get_transaction cfg net tx_hash w1 = (Ret (EvmVerify.tx_info v), w'))
          \/ (EvmVerify.verified v = false
              /\ r = Ret (false, EvmVerify.error v)
              /\ (exists text, EvmVerify.error v = Some text /\ text <> "")
              /\ EvmVerify.tx_info v = JNull
              /\ w' = w1))
  | (Raise k t, w'), (r, w1) => r = Raise k t /\ w' = w1
  end.
Proof.
  unfold EvmVerify.verify_payment. unfold bind at 1.
  destruct (EvmVerify.verify_mon_payment cfg net tx_hash sender_address amount_wei w)
    as [[[[|] e]|k t] w1] eqn:Hrun.
  - destruct (accepted_sound _ _ _ _ _ _ _ _ Hrun) as (-> & _).
    unfold bind, ret.
    destruct (get_transaction_returns cfg net tx_hash w1) as (tx & w3 & Hagain & _).
    rewrite Hagain. cbn. auto 10.
  - apply rejection_text_set in Hrun.
    unfold ret. cbn. split; [reflexivity|]. right.
    repeat split; try reflexivity.
    destruct e as [text|]; [|discriminate]. exists text. split; [reflexivity|].
    intros ->. discriminate.
  - auto.
Qed.

End Faults.

(** ** Bounds on the polling loop *)

Section LoopBounds.

Variable cfg : config.
Variable net : network.
Variable from_address : string.
Variable expected_amount : Z.
Variable tx_hash : string.
Variable timeout start_time : Z.

Abbreviation loop fuel :=
  (PaymentVerifier.polling cfg net fuel from_address expected_amount tx_hash
     timeout start_time).
Abbreviation one_attempt :=
  (EvmVerify.verify_mon_payment cfg net tx_hash from_address expected_amount).

Lemma attempt_is_polling events :
  Forall (Effects.of_attempt cfg tx_hash) events ->
  Forall (Effects.of_polling cfg tx_hash) events.
Proof. apply Forall_impl. intros e H. now left. Qed.

(** What a run of the loop adds to the trace, and how often it sleeps
    and asks: a sleep needs two seconds of the time that is left. *)
Lemma polling_effects fuel :
  forall w r w',
    loop fuel w = Some (r, w') ->
    exists events,
      trace w' = (trace w ++ events)%list
      /\ Forall (Effects.of_polling cfg tx_hash) events
      /\ 2000 * Z.of_nat (Polling.sleeps events)
         <= Z.max 0 (1000 * timeout - (now w - start_time) + 1999)
      /\ (Polling.requests events <= 2 * (Polling.sleeps events + 1))%nat.
Proof.
  induction fuel as [|fuel IH]; intros w r w'; cbn [PaymentVerifier.polling];
    [discriminate|].
  destruct (Z.ltb_spec (now w - start_time) (1000 * timeout)) as [Hin|Hout].
  2:{ destruct (int_str timeout) as [seconds|k t]; intros [= <- <-].
      - eexists [_]. unfold print. cbn [snd trace].
        split; [reflexivity|]. split; [|cbn; lia].
        constructor; [|constructor]. left. right. eauto.
      - exists []. rewrite app_nil_r.
        split; [reflexivity|]. split; [constructor | cbn; lia]. }
  destruct (attempt_effects cfg net tx_hash from_address expected_amount w)
    as (ev1 & Htrace1 & Hall1 & Hreq1 & Hsl1 & _).
  destruct (one_attempt w) as [[[[|] e]|k t] w1] eqn:Hrun; cbn [snd] in Htrace1.
  - intros [= <- <-]. exists ev1. rewrite Hsl1.
    repeat split; [assumption | now apply attempt_is_polling | lia | lia].
  - destruct (PaymentVerifier.asks_to_wait e) eqn:Hwait.
    + intros Hrest. apply IH in Hrest.
      destruct Hrest as (ev2 & Htrace2 & Hall2 & Hsl2 & Hreq2).
      pose proof (attempt_clock cfg net _ _ _ _ _ _ Hrun) as Hclock.
      pose proof (sleep_clock net 2 w1) as Hsleep.
      exists (ev1 ++ Slept 2 :: ev2)%list.
      split.
      { rewrite Htrace2. unfold sleep. cbn [snd trace].
        rewrite Htrace1, <- !app_assoc. reflexivity. }
      split.
      { apply Forall_app. split; [now apply attempt_is_polling|].
        constructor; [now right | assumption]. }
      rewrite sleeps_app, requests_app, Hsl1.
      change (Polling.sleeps (Slept 2 :: ev2)) with (S (Polling.sleeps ev2)).
      change (Polling.requests (Slept 2 :: ev2)) with (Polling.requests ev2).
      split; lia.
    + rewrite (rejection_text_set _ _ _ _ _ _ _ _ Hrun).
      intros [= <- <-]. eexists (ev1 ++ [_])%list. unfold print. cbn [snd trace].
      split; [rewrite Htrace1, <- app_assoc; reflexivity|].
      split.
      { apply Forall_app. split; [now apply attempt_is_polling|].
        constructor; [|constructor]. left. right. eauto. }
      rewrite sleeps_app, requests_app, Hsl1. cbn. lia.
  - intros [= <- <-]. exists ev1. rewrite Hsl1.
    repeat split; [assumption | now apply attempt_is_polling | lia | lia].
Qed.

End LoopBounds.

Section LoopProperties.

Variable cfg : config.
Variable net : network.

(** A call with enough fuel ends, having only added to the trace, and
    what it added is queries for the hash at the configured endpoint,
    console lines and two-second sleeps: it sends nothing else. *)
Theorem polling_reads_only fuel from_address expected_amount tx_hash timeout w :
  (PaymentVerifier.enough_fuel timeout <= fuel)%nat ->
  exists r w' events,
    PaymentVerifier.verify_payment cfg net fuel from_address expected_amount
      (Some tx_hash) timeout w = Some (r, w')
    /\ trace w' = (trace w ++ events)%list
    /\ Forall (Effects.of_polling cfg tx_hash) events.
Proof.
  intros Hfuel. unfold PaymentVerifier.verify_payment.
  destruct (tx_hash =? "")%string.
  { exists (Ret (false, None)), w, []. rewrite app_nil_r. auto. }
  destruct (enough_fuel_covers timeout fuel w Hfuel) as (f & -> & Hcov).
  destruct (polling_total cfg net from_address expected_amount tx_hash timeout (now w) f w Hcov)
    as (r & w' & Hrun).
  destruct (polling_effects cfg net _ _ _ _ _ _ _ _ _ Hrun) as (events & Ht & Hall & _).
  exists r, w', events. auto.
Qed.

(** A call with enough fuel sleeps at most (timeout + 1) / 2 times, not
    at all for a timeout that is not positive, and sends at most two
    requests per attempt, one attempt more than it sleeps. *)
Theorem polling_bounds fuel from_address expected_amount tx_hash timeout w :
  (PaymentVerifier.enough_fuel timeout <= fuel)%nat ->
  exists r w' events,
    PaymentVerifier.verify_payment cfg net fuel from_address expected_amount
      (Some tx_hash) timeout w = Some (r, w')
    /\ trace w' = (trace w ++ events)%list
    /\ 2 * Z.of_nat (Polling.sleeps events) <= Z.max 0 (timeout + 1)
    /\ (Polling.requests events <= 2 * (Polling.sleeps events + 1))%nat.
Proof.
  intros Hfuel. unfold PaymentVerifier.verify_payment.
  destruct (tx_hash =? "")%string.
  { exists (Ret (false, None)), w, []. rewrite app_nil_r. cbn. repeat split; lia. }
  destruct (enough_fuel_covers timeout fuel w Hfuel) as (f & -> & Hcov).
  destruct (polling_total cfg net from_address expected_amount tx_hash timeout (now w) f w Hcov)
    as (r & w' & Hrun).
  destruct (polling_effects cfg net _ _ _ _ _ _ _ _ _ Hrun)
    as (events & Ht & _ & Hsl & Hreq).
  exists r, w', events. repeat split; [assumption..| |assumption]. lia.
Qed.

(** With a timeout that is not positive the loop body never runs: the
    call prints the timeout line and returns (false, None) without a
    request; when the timeout cannot be written in 4300 decimal digits,
    formatting that line raises and nothing is printed. *)
Theorem no_time_no_request fuel from_address expected_amount tx_hash timeout w :
  tx_hash <> "" ->
  timeout <= 0 ->
  (PyStr.fits timeout = true ->
   PaymentVerifier.verify_payment cfg net (S fuel) from_address expected_amount
     (Some tx_hash) timeout w
   = Some (Ret (false, None),
           snd (print ("Payment verification timed out after "
                         ++ PyStr.of_Z timeout ++ "s") w)))
  /\ (PyStr.fits timeout = false ->
      exists t,
        PaymentVerifier.verify_payment cfg net (S fuel) from_address expected_amount
          (Some tx_hash) timeout w
        = Some (Raise ValueError t, w)).
Proof.
  intros Hhash Htimeout. unfold PaymentVerifier.verify_payment.
  apply String.eqb_neq in Hhash. rewrite Hhash.
  cbn [PaymentVerifier.polling].
  destruct (Z.ltb_spec (now w - now w) (1000 * timeout)); [lia|].
  split; intros Hfits.
  - now rewrite (int_str_fits _ Hfits).
  - destruct (int_str_limit _ Hfits) as (t & ->). eauto.
Qed.

End LoopProperties.

Lemma msg_pending_waits tx_hash :
  PaymentVerifier.asks_to_wait (Some (EvmVerify.msg_pending tx_hash)) = true.
Proof.
  unfold PaymentVerifier.asks_to_wait, EvmVerify.msg_pending.
  rewrite !lower_app.
  rewrite (contains_app_r "pending" (PyStr.lower "Transaction ")); [reflexivity|].
  apply contains_app_r.
  apply (contains_app_r "pending" " " ("pending" ++ " or not yet mined")).
  apply contains_here.
Qed.

Section NeverMined.

Variable cfg : config.
Variable net : network.
Variable from_address : string.
Variable expected_amount : Z.
Variable tx_hash : string.
Variable timeout start_time : Z.
Variable L : N.

Hypothesis sender_ok :
  raises (EthUtils.to_checksum_address (JStr from_address)) = false.
Hypothesis recipient_ok :
  raises (EthUtils.to_checksum_address (JStr (PAYMENT_RECIPIENT_ADDRESS cfg))) = false.
Hypothesis known :
  forall w tx w1,
    EvmVerify.get_transaction cfg net tx_hash w = (Ret tx, w1) -> truthy tx = true.
Hypothesis not_mined :
  forall w receipt w1,
    EvmVerify.get_transaction_receipt cfg net tx_hash w = (Ret receipt, w1) ->
    truthy receipt = false.
Hypothesis lag_bound : forall i, (lag net i <= L)%N.

Lemma pending_attempt w :
  exists w2,
    EvmVerify.verify_mon_payment cfg net tx_hash from_address expected_amount w
    = (Ret (false, Some (EvmVerify.msg_pending tx_hash)), w2)
    /\ now w <= now w2 <= now w + 2 * Z.of_N L.
Proof.
  destruct (get_transaction_returns cfg net tx_hash w) as (tx & w1 & Htx & Hnow & _).
  destruct (get_transaction_receipt_returns cfg net tx_hash w1)
    as (receipt & w2 & Hrc & Hnow' & _).
  exists w2. split.
  - unfold EvmVerify.verify_mon_payment.
    destruct (EthUtils.to_checksum_address (JStr from_address));
      [|discriminate sender_ok].
    destruct (EthUtils.to_checksum_address (JStr (PAYMENT_RECIPIENT_ADDRESS cfg)));
      [|discriminate recipient_ok].
    unfold bind at 1. rewrite Htx, (known _ _ _ Htx). cbn [negb].
    unfold bind at 1. now rewrite Hrc, (not_mined _ _ _ Hrc).
  - pose proof (lag_bound (suspensions w)). pose proof (lag_bound (suspensions w1)). lia.
Qed.

Lemma waiting_loop fuel :
  forall w,
    Polling.covered timeout start_time fuel w ->
    exists r w',
      PaymentVerifier.polling cfg net (S fuel) from_address expected_amount tx_hash
        timeout start_time w = Some (r, w')
      /\ r = match int_str timeout with
             | Ret _ => Ret (false, None)
             | Raise k t => Raise k t
             end
      /\ 1000 * timeout <= now w' - start_time
      /\ now w' - start_time
         <= Z.max (now w - start_time) (1000 * timeout + 1999 + 3 * Z.of_N L).
Proof.
  induction fuel as [|fuel IH]; intros w Hcov; cbn [PaymentVerifier.polling];
    (destruct (Z.ltb_spec (now w - start_time) (1000 * timeout)) as [Hin|Hout];
     [|destruct (int_str timeout); do 2 eexists;
       (split; [reflexivity|]); (split; [reflexivity|]);
       unfold print; cbn [snd now]; lia]).
  - unfold Polling.covered in Hcov. lia.
  - destruct (pending_attempt w) as (w2 & Hrun & Hclock).
    rewrite Hrun, msg_pending_waits.
    destruct (covered_after_retry cfg net from_address expected_amount tx_hash
                timeout start_time _ _ _ _ Hin Hcov Hrun) as (f & [= <-] & Hcov').
    destruct (IH _ Hcov') as (r & w' & Hend & Hr & Hlow & Hhigh).
    exists r, w'. split; [exact Hend|]. split; [exact Hr|]. split; [exact Hlow|].
    pose proof (lag_bound (suspensions w2)).
    unfold sleep in Hhigh. cbn [snd now] in Hhigh. lia.
Qed.

End NeverMined.

(** A transaction the node knows but whose receipt never appears: with
    addresses that normalise, the call ends once the timeout has elapsed
    and no later than one backoff and three request lags after it; it
    returns (false, None), or raises at the timeout line when the timeout
    cannot be written in 4300 decimal digits. *)
Theorem never_mined_times_out cfg net fuel from_address expected_amount tx_hash
    timeout w L :
  tx_hash <> "" ->
  (PaymentVerifier.enough_fuel timeout <= fuel)%nat ->
  raises (EthUtils.to_checksum_address (JStr from_address)) = false ->
  raises (EthUtils.to_checksum_address (JStr (PAYMENT_RECIPIENT_ADDRESS cfg))) = false ->
  (forall w0 tx w1,
     EvmVerify.get_transaction cfg net tx_hash w0 = (Ret tx, w1) -> truthy tx = true) ->
  (forall w0 receipt w1,
     EvmVerify.get_transaction_receipt cfg net tx_hash w0 = (Ret receipt, w1) ->
     truthy receipt = false) ->
  (forall i, (lag net i <= L)%N) ->
  exists r w',
    PaymentVerifier.verify_payment cfg net fuel from_address expected_amount
      (Some tx_hash) timeout w = Some (r, w')
    /\ (PyStr.fits timeout = true -> r = Ret (false, None))
    /\ (PyStr.fits timeout = false -> exists t, r = Raise ValueError t)
    /\ 1000 * timeout <= now w' - now w
    /\ now w' - now w <= Z.max 0 (1000 * timeout + 1999 + 3 * Z.of_N L).
Proof.
  intros Hhash Hfuel Hs Hr Hknown Hnot Hlag.
  unfold PaymentVerifier.verify_payment.
  apply String.eqb_neq in Hhash. rewrite Hhash.
  destruct (enough_fuel_covers timeout fuel w Hfuel) as (f & -> & Hcov).
  destruct (waiting_loop cfg net from_address expected_amount tx_hash timeout (now w) L
              Hs Hr Hknown Hnot Hlag f w Hcov) as (r & w' & Hend & -> & Hlow & Hhigh).
  exists (match int_str timeout with
          | Ret _ => Ret (false, None)
          | Raise k t => Raise k t
          end), w'.
  split; [exact Hend|]. split; [|split; [|split; [exact Hlow | lia]]].
  - intros Hfits. now rewrite (int_str_fits _ Hfits).
  - intros Hfits. destruct (int_str_limit _ Hfits) as (t & ->). eauto.
Qed.

(** ** Sample runs of the properties above *)

(** A sender that is no address: rejected in the initial world. *)
Lemma malformed_address_sends_nothing_witness :
  exists e,
    EvmVerify.verify_mon_payment default_config Sample.empty_node Sample.some_hash
      "not an address" Sample.one_mon initial_world
    = (Ret (false, Some (EvmVerify.msg_invalid_address e)), initial_world).
Proof.
  apply malformed_address_sends_nothing. left. vm_compute. reflexivity.
Defined.

(** An unknown hash, and a known transaction without a receipt. *)
Lemma existence_clauses_witness :
  EvmVerify.verify_mon_payment default_config Sample.empty_node Sample.some_hash
    Sample.payer Sample.one_mon initial_world
  = (Ret (false, Some "Transaction 0xabc not found on chain"), Sample.after_one_fetch)
  /\ EvmVerify.verify_mon_payment default_config Sample.stuck_node Sample.some_hash
       Sample.payer Sample.one_mon initial_world
     = (Ret (false, Some "Transaction 0xabc pending or not yet mined"),
        Sample.after_two_fetches).
Proof.
  split.
  - apply (proj1 (existence_clauses default_config Sample.empty_node Sample.some_hash
                    Sample.payer Sample.one_mon initial_world JNull Sample.after_one_fetch
                    ltac:(vm_compute; reflexivity) ltac:(vm_compute; reflexivity)
                    eq_refl)).
    reflexivity.
  - apply (proj2 (existence_clauses default_config Sample.stuck_node Sample.some_hash
                    Sample.payer Sample.one_mon initial_world Sample.transfer
                    Sample.after_one_fetch
                    ltac:(vm_compute; reflexivity) ltac:(vm_compute; reflexivity)
                    eq_refl)
             eq_refl JNull Sample.after_two_fetches eq_refl eq_refl).
Defined.

(** A transfer sent by a stranger. *)
Lemma sender_mismatch_rejected_witness :
  EvmVerify.verify_mon_payment default_config
    (Sample.node Sample.transfer_by_stranger Sample.success)
    Sample.some_hash Sample.payer Sample.one_mon initial_world
  = (Ret (false,
          Some (EvmVerify.msg_sender_mismatch Sample.payer Sample.stranger)),
     Sample.after_two_fetches).
Proof.
  apply (sender_mismatch_rejected default_config _ Sample.some_hash Sample.payer
           Sample.one_mon initial_world _ _ _ Sample.payer Sample.treasury
           (JStr Sample.stranger) Sample.stranger
           (sample_fetches Sample.transfer_by_stranger Sample.success)).
  all: try (vm_compute; reflexivity).
  discriminate.
Defined.

(** A transfer sent to a stranger. *)
Lemma recipient_mismatch_rejected_witness :
  EvmVerify.verify_mon_payment default_config
    (Sample.node Sample.transfer_to_stranger Sample.success)
    Sample.some_hash Sample.payer Sample.one_mon initial_world
  = (Ret (false,
          Some (EvmVerify.msg_recipient_mismatch Sample.treasury Sample.stranger)),
     Sample.after_two_fetches).
Proof.
  apply (recipient_mismatch_rejected default_config _ Sample.some_hash Sample.payer
           Sample.one_mon initial_world _ _ _ Sample.payer Sample.treasury
           (JStr Sample.payer) (JStr Sample.stranger) Sample.stranger
           (sample_fetches Sample.transfer_to_stranger Sample.success)).
  all: try (vm_compute; reflexivity).
  discriminate.
Defined.

(** The sample transfer and its receipt are well formed. *)
Lemma well_formed_records_do_not_raise_witness :
  raises (fst (EvmVerify.verify_mon_payment default_config
                 (Sample.node Sample.transfer Sample.success)
                 Sample.some_hash Sample.payer Sample.one_mon initial_world))
  = false.
Proof.
  apply (well_formed_records_do_not_raise default_config _ _ _ _ _ _ _ _
           (sample_fetches Sample.transfer Sample.success)).
  1: split; [|split; [|split; [|split]]].
  - exists (JStr "0x1"). reflexivity.
  - exists (JStr Sample.payer). split; vm_compute; reflexivity.
  - exists (JStr Sample.treasury). split; [reflexivity|]. intros _. vm_compute. reflexivity.
  - exists Sample.one_mon. split; vm_compute; reflexivity.
  - exists (JStr "0x279f"). split; [reflexivity|]. intros _.
    exists CHAIN_ID. split; vm_compute; reflexivity.
  - vm_compute. reflexivity.
Defined.

(** The run against the endpoint that has the receipt at the second
    attempt. *)
Lemma polling_reads_only_witness :
  exists r w' events,
    PaymentVerifier.verify_payment default_config Sample.slow_node
      (PaymentVerifier.enough_fuel 30) Sample.payer Sample.one_mon
      (Some Sample.some_hash) 30 initial_world = Some (r, w')
    /\ trace w' = (trace initial_world ++ events)%list
    /\ Forall (Effects.of_polling default_config Sample.some_hash) events.
Proof.
  apply polling_reads_only. vm_compute. lia.
Defined.

(** The run against the endpoint that knows no transaction, for a hash
    that keeps it waiting. *)
Lemma polling_bounds_witness :
  exists r w' events,
    PaymentVerifier.verify_payment default_config Sample.empty_node
      (PaymentVerifier.enough_fuel 30) Sample.payer Sample.one_mon
      (Some "0xpending") 30 initial_world = Some (r, w')
    /\ trace w' = (trace initial_world ++ events)%list
    /\ 2 * Z.of_nat (Polling.sleeps events) <= Z.max 0 (30 + 1)
    /\ (Polling.requests events <= 2 * (Polling.sleeps events + 1))%nat.
Proof.
  apply polling_bounds. vm_compute. lia.
Defined.

(** A timeout of zero seconds. *)
Lemma no_time_no_request_witness :
  PaymentVerifier.verify_payment default_config Sample.empty_node 1 Sample.payer
    Sample.one_mon (Some Sample.some_hash) 0 initial_world
  = Some (Ret (false, None),
          {| now := 0; suspensions := 0;
             trace := [Printed "Payment verification timed out after 0s"] |}).
Proof.
  apply (proj1 (no_time_no_request default_config Sample.empty_node 0 Sample.payer
                  Sample.one_mon Sample.some_hash 0 initial_world
                  ltac:(discriminate) ltac:(lia))).
  vm_compute. reflexivity.
Defined.

(** The endpoint that has the transfer and never its receipt, with a
    timeout of 30 seconds and a lag of 100 ms. *)
Lemma never_mined_times_out_witness :
  exists r w',
    PaymentVerifier.verify_payment default_config Sample.stuck_node
      (PaymentVerifier.enough_fuel 30) Sample.payer Sample.one_mon
      (Some Sample.some_hash) 30 initial_world = Some (r, w')
    /\ (PyStr.fits 30 = true -> r = Ret (false, None))
    /\ (PyStr.fits 30 = false -> exists t, r = Raise ValueError t)
    /\ 1000 * 30 <= now w' - now initial_world
    /\ now w' - now initial_world <= Z.max 0 (1000 * 30 + 1999 + 3 * Z.of_N 100).
Proof.
  apply never_mined_times_out.
  - discriminate.
  - vm_compute. lia.
  - vm_compute. reflexivity.
  - vm_compute. reflexivity.
  - intros w0 tx w1 H. vm_compute in H. now injection H as <- _.
  - intros w0 receipt w1 H. vm_compute in H. now injection H as <- _.
  - intros i. vm_compute. discriminate.
Defined.

(** ** Edge cases of the value and chain checks, and letter case *)

Section Edges.

Variable cfg : config.
Variable net : network.

(** A payment is accepted whatever the letter case in which the record
    spells its sender and recipient: a mined, successful transfer whose
    [from] and [to] texts equal the expected sender and the configured
    recipient up to case, with a sufficient value and no foreign chain
    id, is verified. *)
Theorem payment_accepted_any_case tx_hash expected_sender amount w members receipt w2
    tx_from tx_to :
  Rule.fetches cfg net tx_hash w (JObj members) receipt w2 ->
  raises (EthUtils.to_checksum_address (JStr expected_sender)) = false ->
  raises (EthUtils.to_checksum_address (JStr (PAYMENT_RECIPIENT_ADDRESS cfg))) = false ->
  truthy receipt = true ->
  py_get receipt "status" JNull = Ret (JStr "0x1") ->
  lookup "from" members = Some (JStr tx_from) ->
  PyStr.lower tx_from = PyStr.lower expected_sender ->
  lookup "to" members = Some (JStr tx_to) ->
  PyStr.lower tx_to = PyStr.lower (PAYMENT_RECIPIENT_ADDRESS cfg) ->
  Rule.clause_7 amount (JObj members) ->
  Rule.clause_8 (JObj members) ->
  EvmVerify.verify_mon_payment cfg net tx_hash expected_sender amount w
  = (Ret (true, None), w2).
Proof.
  intros Hfetch Hs Hr Htr Hstatus Hfrom Hfcase Hto Htcase
    (v & Hv & Hcovers) (c & Hc & Hchain).
  destruct (EthUtils.to_checksum_address (JStr expected_sender)) as [sender|] eqn:Es;
    [|discriminate Hs].
  destruct (EthUtils.to_checksum_address (JStr (PAYMENT_RECIPIENT_ADDRESS cfg)))
    as [recipient|] eqn:Er; [|discriminate Hr].
  assert (Hto_ok : truthy (JStr tx_to) = true).
  { destruct tx_to; [|reflexivity].
    destruct (PAYMENT_RECIPIENT_ADDRESS cfg); [|discriminate Htcase].
    vm_compute in Er. discriminate Er. }
  assert (H16 : Rule.clauses_1_to_6 cfg expected_sender (JObj members) receipt).
  { exists sender, recipient, (JStr tx_from), (JStr tx_to).
    unfold py_get. rewrite Hfrom, Hto.
    repeat split; try assumption.
    - destruct members; [discriminate Hfrom | reflexivity].
    - apply (to_checksum_address_case expected_sender tx_from sender); auto.
    - apply (to_checksum_address_case (PAYMENT_RECIPIENT_ADDRESS cfg) tx_to recipient);
        auto. }
  rewrite (run_past_clause_6 cfg net _ _ amount _ _ _ _ Hfetch H16), Hv, Hc.
  apply Z.ltb_ge in Hcovers. rewrite Hcovers.
  destruct Hchain as [-> | ->]; [reflexivity|].
  destruct (truthy c); [|reflexivity]. now rewrite Z.eqb_refl.
Qed.

(** A record without the [value] member counts as a transfer of zero:
    past clauses 1 to 6 it is rejected as AmountTooLow, with 0 as the
    value got, for every positive expected amount that can be written in
    4300 decimal digits; for a larger one formatting the text raises. *)
Theorem missing_value_reads_zero tx_hash expected_sender amount w members receipt w2 :
  Rule.fetches cfg net tx_hash w (JObj members) receipt w2 ->
  Rule.clauses_1_to_6 cfg expected_sender (JObj members) receipt ->
  lookup "value" members = None ->
  0 < amount ->
  (PyStr.fits amount = true ->
   EvmVerify.verify_mon_payment cfg net tx_hash expected_sender amount w
   = (Ret (false, Some ("Amount too low: expected " ++ PyStr.of_Z amount ++ ", got 0")),
      w2))
  /\ (PyStr.fits amount = false ->
      exists t,
        EvmVerify.verify_mon_payment cfg net tx_hash expected_sender amount w
        = (Raise ValueError t, w2)).
Proof.
  intros Hfetch H16 Hnone Hpos.
  rewrite (run_past_clause_6 cfg net _ _ amount _ _ _ _ Hfetch H16).
  unfold Rule.value_of, py_get. rewrite Hnone. cbv beta iota.
  change (PyInt.int16 (JStr "0x0")) with (@Ret Z 0). cbv beta iota.
  apply Z.ltb_lt in Hpos. rewrite Hpos.
  split; intros Hfits.
  - now rewrite (msg_amount_too_low_fits amount 0 Hfits eq_refl).
  - destruct (msg_amount_too_low_limit amount 0) as (t & ->); [|eauto].
    now rewrite Hfits.
Qed.

(** Past clauses 1 to 6 the two integer conversions are unguarded: a
    [value] member that [int(_, 16)] refuses makes the attempt raise,
    and so does, once the value suffices, a chain identifier that is
    present, not empty or zero, and refused. *)
Theorem malformed_numbers_raise tx_hash expected_sender amount w tx receipt w2 :
  Rule.fetches cfg net tx_hash w tx receipt w2 ->
  Rule.clauses_1_to_6 cfg expected_sender tx receipt ->
  (forall k t,
     Rule.value_of tx = Raise k t ->
     EvmVerify.verify_mon_payment cfg net tx_hash expected_sender amount w
     = (Raise k t, w2))
  /\ (forall c k t,
        Rule.clause_7 amount tx ->
        py_get tx "chainId" JNull = Ret c ->
        truthy c = true ->
        PyInt.int16 c = Raise k t ->
        EvmVerify.verify_mon_payment cfg net tx_hash expected_sender amount w
        = (Raise k t, w2)).
Proof.
  intros Hfetch H16.
  rewrite (run_past_clause_6 cfg net _ _ amount _ _ _ _ Hfetch H16).
  split.
  - intros k t ->. reflexivity.
  - intros c k t (v & -> & Hcovers) -> -> ->.
    apply Z.ltb_ge in Hcovers. now rewrite Hcovers.
Qed.

End Edges.

(** The transfer with its addresses in upper case. *)
Lemma payment_accepted_any_case_witness :
  EvmVerify.verify_mon_payment default_config
    (Sample.node Sample.shouted_transfer Sample.success)
    Sample.some_hash Sample.payer Sample.one_mon initial_world
  = (Ret (true, None), Sample.after_two_fetches).
Proof.
  apply (payment_accepted_any_case default_config _ Sample.some_hash Sample.payer
           Sample.one_mon initial_world _ Sample.success Sample.after_two_fetches
           "0X1111111111111111111111111111111111111111"
           "0X0000000000000000000000000000000000000001"
           (sample_fetches Sample.shouted_transfer Sample.success)).
  all: try (vm_compute; reflexivity).
  - exists Sample.one_mon. split; [reflexivity | apply Z.le_refl].
  - exists JNull. split; [reflexivity | left; reflexivity].
Defined.

(** The record without a value, against an expected amount of one wei. *)
Lemma missing_value_reads_zero_witness :
  EvmVerify.verify_mon_payment default_config
    (Sample.node Sample.valueless Sample.success)
    Sample.some_hash Sample.payer 1 initial_world
  = (Ret (false, Some "Amount too low: expected 1, got 0"), Sample.after_two_fetches).
Proof.
  apply (proj1 (missing_value_reads_zero default_config _ Sample.some_hash Sample.payer 1
                  initial_world _ Sample.success Sample.after_two_fetches
                  (sample_fetches Sample.valueless Sample.success) (sample_clauses _)
                  eq_refl ltac:(lia))).
  vm_compute. reflexivity.
Defined.

(** The transfer whose chain identifier is the number 10143, not its
    hexadecimal text. *)
Lemma malformed_numbers_raise_witness :
  EvmVerify.verify_mon_payment default_config
    (Sample.node Sample.numbered_transfer Sample.success)
    Sample.some_hash Sample.payer Sample.one_mon initial_world
  = (Raise TypeError "int() can't convert non-string with explicit base",
     Sample.after_two_fetches).
Proof.
  apply (proj2 (malformed_numbers_raise default_config _ Sample.some_hash Sample.payer
                  Sample.one_mon initial_world _ Sample.success Sample.after_two_fetches
                  (sample_fetches Sample.numbered_transfer Sample.success)
                  (sample_clauses _))
           (JInt 10143)).
  - exists Sample.one_mon. split; [reflexivity | apply Z.le_refl].
  - reflexivity.
  - reflexivity.
  - reflexivity.
Defined.
